(** * miraibay-cli: the auction commands [bid] and [create]

    A shallow embedding of [miraibay_cli/commands/auction.py].  The two
    command handlers are glue code around a client SDK: they validate
    arguments, build a programmable transaction through the SDK's
    transaction builder, submit it and print the outcome.  Everything the
    handlers do to their surroundings (printing, prompting, SDK requests)
    is recorded in an ordered log, so that statements such as "the split
    precedes the call" or "nothing is submitted" are statements about that
    log. *)

From Stdlib Require Import ZArith List Ascii String Bool Lia QArith.
Import ListNotations.

Local Open Scope string_scope.
Local Open Scope Z_scope.

(** ** Programmable transactions *)

(** Values that can be handed to a transaction command: the SDK's typed
    wrappers ([ObjectID], [SuiString], [SuiU64]), the gas coin ([txer.gas])
    and references to the results of earlier commands of the same
    transaction.  [Result i] is everything command [i] returns and
    [NestedResult i j] its [j]-th return value.

    A constructor here is the wrapper as a value.  Building one in the
    source is a call into the SDK that checks what it is given ([SuiU64]
    asserts the unsigned 64-bit range) and may raise: that call is [wrap]
    below. *)
Inductive argument : Type :=
| GasCoin
| Result (i : nat)
| NestedResult (i j : nat)
| ObjectID (id : string)
| SuiString (s : string)
| SuiU64 (n : Z).

(** One operation of a transaction, as the builder method that adds it is
    called in the source. *)
Inductive command : Type :=
| SplitCoin (coin : argument) (amounts : list Z)
| MoveCall (target : string) (arguments : list argument)
           (type_arguments : list string)
| TransferObjects (transfers : list argument) (recipient : string).

Definition transaction := list command.

(** What a handler asks of the SDK: open a builder (with the keyword flags
    of the call site, [None] for a flag left out), add a command, execute
    what has been built under a gas budget, or wrap a value in one of the
    SDK's types. *)
Inductive sdk_request : Type :=
| NewTransaction (compress_inputs merge_gas_budget : option bool)
| Build (c : command)
| Execute (tx : transaction) (gas_budget : Z)
| Wrap (a : argument).

(** ** Python's [Decimal], as far as [Decimal(n) / m] on integers needs it *)

Module Decimal.

(** A finite decimal [(-1)^sign * coeff * 10^exp]. *)
Record t : Type := mk { sign : bool; coeff : Z; exp : Z }.

(** The default context. *)
Definition prec : Z := 28.
Definition Emax : Z := 999999.
Definition Emin : Z := -999999.
Definition Etiny : Z := Emin - prec + 1.
Definition Etop : Z := Emax - prec + 1.

(** [Decimal(n)] for a Python [int]. *)
Definition of_int (n : Z) : t := mk (n <? 0) (Z.abs n) 0.

(** [len(str(n))] for [n >= 0]: the number of decimal digits. *)
Fixpoint ndigits_aux (fuel : nat) (n : Z) : Z :=
  match fuel with
  | O => 1
  | S fuel' => if n <? 10 then 1 else 1 + ndigits_aux fuel' (n / 10)
  end.

Definition ndigits (n : Z) : Z := ndigits_aux (Z.to_nat (Z.log2 n)) n.

(** The loop that brings an exact quotient as close to the ideal
    exponent as its trailing zeros allow:
    [while exp < ideal_exp and coeff % 10 == 0: coeff //= 10; exp += 1].
    The exponent rises by one per turn, so [ideal_exp - exp] turns are
    enough. *)
Fixpoint strip_zeros (turns : nat) (ideal_exp c e : Z) : Z * Z :=
  match turns with
  | O => (c, e)
  | S turns' =>
      if (e <? ideal_exp) && (c mod 10 =? 0)
      then strip_zeros turns' ideal_exp (c / 10) (e + 1)
      else (c, e)
  end.

(** The unrounded quotient of two finite, non-zero-divisor decimals, as
    [__truediv__] computes it: [prec + 1] digits and a sticky last digit
    when the division is inexact. *)
Definition div_raw (a b : t) : t :=
  let sgn := xorb (sign a) (sign b) in
  if coeff a =? 0 then mk sgn 0 (exp a - exp b)
  else
    let shift := ndigits (coeff b) - ndigits (coeff a) + prec + 1 in
    let e := exp a - exp b - shift in
    let num := if 0 <=? shift then coeff a * 10 ^ shift else coeff a in
    let den := if 0 <=? shift then coeff b else coeff b * 10 ^ (- shift) in
    let c := num / den in
    let r := num mod den in
    if r =? 0 then
      let ideal_exp := exp a - exp b in
      let '(c', e') := strip_zeros (Z.to_nat (ideal_exp - e)) ideal_exp c e in
      mk sgn c' e'
    else
      mk sgn (if c mod 5 =? 0 then c + 1 else c) e.

(** [_fix]: fit a finite decimal to the context.  [None] stands for the
    signals the default context traps (Overflow); a coefficient of more
    than [prec] digits is rounded half-even. *)
Definition fix_ (d : t) : option t :=
  if coeff d =? 0 then
    Some (mk (sign d) 0 (Z.min (Z.max (exp d) Etiny) Emax))
  else
    let len := ndigits (coeff d) in
    let exp_min := len + exp d - prec in
    if Etop <? exp_min then None
    else
      let exp_min := Z.max exp_min Etiny in
      if exp d <? exp_min then
        let drop := exp_min - exp d in
        let q := coeff d / 10 ^ drop in
        let r := coeff d mod 10 ^ drop in
        let half := 5 * 10 ^ (drop - 1) in
        let up := (half <? r) || ((r =? half) && Z.odd q) in
        if up && (prec <? ndigits (q + 1)) then
          if Etop <? exp_min + 1 then None
          else Some (mk (sign d) ((q + 1) / 10) (exp_min + 1))
        else Some (mk (sign d) (if up then q + 1 else q) exp_min)
      else Some d.

(** [a / b] under the default context, for a non-zero divisor. *)
Definition truediv (a b : t) : option t := fix_ (div_raw a b).

(** The rational number a decimal denotes. *)
Definition to_Q (d : t) : Q :=
  let c := if sign d then - coeff d else coeff d in
  Qmake (c * 10 ^ Z.max 0 (exp d)) (Z.to_pos (10 ^ Z.max 0 (- exp d))).

End Decimal.

(** ** The surroundings of a command *)

(** What [txer.execute(...)] hands back: a result that is ok and carries
    its data, or one that is not and carries the SDK's error text. *)
Inductive rpc_result : Type :=
| RpcOk (payload : string)
| RpcErr (msg : string).

(** What happens at the [typer.confirm] prompt: the user answers yes or
    no, or the input ends (or is interrupted) before an answer. *)
Inductive reply : Type :=
| Answer (yes : bool)
| NoAnswer.

(** Everything outside the handlers that their behaviour depends on.

    - [clock_ms] is the value of
      [int(datetime.now(UTC).timestamp() * 1000)] when it is evaluated;
    - [isoformat_ms ts] is
      [datetime.fromtimestamp(ts / 1000, UTC).isoformat()], [None] when the
      conversion raises (a date outside the calendar's range);
    - [confirm_reply] is what the user does at the prompt;
    - [active_address] is [config.active_address];
    - [sdk_fault r] is the exception text when the SDK raises on request
      [r] ([None]: it does not raise); for [Wrap a] it is the verdict of
      the constructor that builds [a];
    - [submit tx gas] is the result of executing [tx] under budget
      [gas]. *)
Record world : Type := {
  clock_ms : Z;
  isoformat_ms : Z -> option string;
  confirm_reply : reply;
  active_address : string;
  sdk_fault : sdk_request -> option string;
  submit : transaction -> Z -> rpc_result
}.

(** A line handed to [print]: the f-string of the call site with its
    holes filled. *)
Inductive line : Type :=
| LName (name : string)
| LDescription (description : option string)
| LStart (start_ts : Z) (iso : string)
| LEnd (end_ts : Z) (iso : string)
| LReserve (sui : Decimal.t)
| LResult (result : string).

(** The observable steps of a run, in the order they happen: what the
    handler prints, the prompt it shows, and the calls by which it reaches
    the builder and the network. *)
Inductive event : Type :=
| Printed (l : line)
| Prompted (text : string)
| Requested (r : sdk_request).

(** The argument of [typer.Exit]: whatever object the caller passes as
    its exit code. *)
Inductive exit_code : Type :=
| CodeInt (n : Z)
| CodeStr (s : string).

(** Exceptions that leave a handler.  [SystemExit code output] is the
    [sys.exit(code)] of [handle_result], which the SDK calls after it has
    written [output] on standard output itself. *)
Inductive exn : Type :=
| Exit (code : exit_code)          (* typer.Exit(code) *)
| Abort                            (* click's Abort, from the prompt *)
| SdkError (msg : string)          (* raised inside an SDK call *)
| ArgumentError (msg : string)     (* raised by a wrapper's constructor *)
| SystemExit (code : Z) (output : string)   (* handle_result *)
| DatetimeError                    (* fromtimestamp out of range *)
| DecimalError.                    (* a trapped decimal signal *)

(** ** The handlers' monad: a log, the builder's commands, exceptions *)

Record state : Type := mkState {
  commands : transaction;          (* the commands the builder holds *)
  log : list event                 (* what has happened so far *)
}.

Inductive res (A : Type) : Type :=
| Val (a : A)
| Exc (e : exn).
Arguments Val {A} a.
Arguments Exc {A} e.

(** A computation keeps its log when it raises: what was printed or
    requested before the exception stays observable. *)
Definition M (A : Type) : Type := state -> state * res A.

Definition ret {A} (a : A) : M A := fun s => (s, Val a).

Definition bind {A B} (m : M A) (k : A -> M B) : M B :=
  fun s => match m s with
           | (s', Val a) => k a s'
           | (s', Exc e) => (s', Exc e)
           end.

Definition raise {A} (e : exn) : M A := fun s => (s, Exc e).

Definition emit (e : event) : M unit :=
  fun s => (mkState (commands s) (log s ++ [e])%list, Val tt).

Declare Scope py_scope.
Delimit Scope py_scope with py.
Notation "x <- c ;; k" := (bind c (fun x => k))
  (at level 61, c at next level, right associativity) : py_scope.
Notation "c ;; k" := (bind c (fun _ => k))
  (at level 61, right associativity) : py_scope.
Local Open Scope py_scope.

Definition init : state := mkState [] [].

(** The run of a handler from a fresh process: its final log and how it
    ended. *)
Definition run {A} (m : M A) : list event * res A :=
  let '(s, r) := m init in (log s, r).

(** ** The SDK and library calls of the source *)

Section Calls.
Variable w : world.

(** [rich.print] of a text the console accepts.  The console reads markup
    in what it is given and raises on a tag it cannot match; a text
    without an opening bracket holds no tag ([plain] below) and is shown
    as it stands. *)
Definition print (l : line) : M unit := emit (Printed l).

(** Every SDK call is a request the SDK may answer with an exception. *)
Definition request (r : sdk_request) : M unit :=
  emit (Requested r) ;;
  match sdk_fault w r with
  | Some msg => raise (SdkError msg)
  | None => ret tt
  end.

(** [ObjectID(..)], [SuiString(..)], [SuiU64(..)]: the constructor of a
    typed value checks what it is given and raises when it refuses it.
    It touches neither the builder nor the network, so it leaves no step
    in the log. *)
Definition wrap (a : argument) : M argument :=
  match sdk_fault w (Wrap a) with
  | Some msg => raise (ArgumentError msg)
  | None => ret a
  end.

(** [SuiTransaction(client=client, ...)]: a fresh, empty builder. *)
Definition SuiTransaction (compress_inputs merge_gas_budget : option bool)
  : M unit :=
  request (NewTransaction compress_inputs merge_gas_budget) ;;
  fun s => (mkState [] (log s), Val tt).

(** The builder appends the command and hands back its position, by
    which later commands refer to its results. *)
Definition add_command (c : command) : M nat :=
  request (Build c) ;;
  fun s => (mkState (commands s ++ [c])%list (log s),
            Val (List.length (commands s))).

(** [txer.split_coin(coin=..., amounts=[a])]: the handle of the one coin
    split off. *)
Definition split_coin (coin : argument) (amounts : list Z) : M argument :=
  i <- add_command (SplitCoin coin amounts) ;;
  ret (Result i).

(** [txer.move_call(target=..., arguments=..., type_arguments=...)]: the
    position of the call.  A caller that binds the result to one name
    uses [Result i]; one that unpacks it into two names uses
    [NestedResult i 0] and [NestedResult i 1]. *)
Definition move_call (target : string) (arguments : list argument)
           (type_arguments : list string) : M nat :=
  add_command (MoveCall target arguments type_arguments).

(** [txer.transfer_objects(transfers=..., recipient=...)]. *)
Definition transfer_objects (transfers : list argument) (recipient : string)
  : M unit :=
  _ <- add_command (TransferObjects transfers recipient) ;;
  ret tt.

(** [txer.execute(gas_budget=...)]. *)
Definition execute (gas_budget : Z) : M rpc_result :=
  fun s =>
    (request (Execute (commands s) gas_budget) ;;
     ret (submit w (commands s) gas_budget)) s.

(** [handle_result]: the data of a result that is ok; for one that is
    not, the SDK writes [Error in result: ] and the error text on standard
    output and calls [sys.exit(-1)]. *)
Definition handle_result (r : rpc_result) : M string :=
  match r with
  | RpcOk payload => ret payload
  | RpcErr msg => raise (SystemExit (-1) ("Error in result: " ++ msg))
  end.

(** [typer.confirm(text)], called without [abort=True]: it returns the
    answer and raises only when no answer can be read. *)
Definition confirm (text : string) : M bool :=
  emit (Prompted text) ;;
  match confirm_reply w with
  | Answer yes => ret yes
  | NoAnswer => raise Abort
  end.

(** [datetime.fromtimestamp(ts / 1000, UTC).isoformat()]. *)
Definition isoformat (ts : Z) : M string :=
  match isoformat_ms w ts with
  | Some iso => ret iso
  | None => raise DatetimeError
  end.

(** [Decimal(n) / m] for integers [n] and [m <> 0]. *)
Definition decimal_div (n m : Z) : M Decimal.t :=
  match Decimal.truediv (Decimal.of_int n) (Decimal.of_int m) with
  | Some d => ret d
  | None => raise DecimalError
  end.

(** ** The two commands *)

Definition PACKAGE_ID : string :=
  "0x34d656894723daac48f3f825ae3b35c428e7b4cb5c65b08bb33349475a1e23ac".

(** Python truthiness of [description]: set and not empty. *)
Definition truthy (description : option string) : bool :=
  match description with
  | Some (String _ _) => true
  | _ => false
  end.

(** The elements of an argument list are evaluated from left to right
    before the call that receives the list is made: the wrappers of a
    call are built, in order, before the builder is asked for the call. *)
Definition bid (auction_id : string) (amount : Z) : M unit :=
  SuiTransaction (Some true) (Some true) ;;
  payment <- split_coin GasCoin [amount] ;;
  auction <- wrap (ObjectID auction_id) ;;
  clock <- wrap (ObjectID "0x6") ;;
  _ <- move_call (PACKAGE_ID ++ "::auction::bid")
         [auction; payment; clock]
         [] ;;
  r <- execute 1000000000 ;;
  result <- handle_result r ;;
  print (LResult result).

Definition create (name : string) (description : option string)
           (start_ts end_ts reserve_price starting_price
              min_bid_increment : Z) : M unit :=
  let start_ts := if start_ts =? 0 then clock_ms w else start_ts in
  if start_ts >? end_ts then
    raise (Exit (CodeStr "Start timestamp must be before end timestamp."))
  else
    print (LName name) ;;
    print (LDescription description) ;;
    iso_start <- isoformat start_ts ;;
    print (LStart start_ts iso_start) ;;
    iso_end <- isoformat end_ts ;;
    print (LEnd end_ts iso_end) ;;
    sui <- decimal_div reserve_price 1000000000 ;;
    print (LReserve sui) ;;
    _ <- confirm "Please confirm the auction details:" ;;
    SuiTransaction (Some true) None ;;
    arguments <- match description with
                 | Some text =>
                     if truthy description
                     then (a <- wrap (SuiString text) ;; ret [a])
                     else ret []
                 | None => ret []
                 end ;;
    i_opt <- move_call
               (if truthy description then "0x1::option::some"
                else "0x1::option::none")
               arguments
               ["0x1::string::String"] ;;
    let description_opt := Result i_opt in
    a_name <- wrap (SuiString name) ;;
    a_start <- wrap (SuiU64 start_ts) ;;
    a_end <- wrap (SuiU64 end_ts) ;;
    a_reserve <- wrap (SuiU64 reserve_price) ;;
    a_starting <- wrap (SuiU64 starting_price) ;;
    a_increment <- wrap (SuiU64 min_bid_increment) ;;
    i_new <- move_call (PACKAGE_ID ++ "::auction::new")
               [a_name; description_opt; a_start; a_end; a_reserve;
                a_starting; a_increment]
               [] ;;
    let auction := NestedResult i_new 0 in
    let auction_manager_cap := NestedResult i_new 1 in
    _ <- move_call "0x2::transfer::public_share_object"
           [auction]
           [PACKAGE_ID ++ "::auction::Auction"] ;;
    transfer_objects [auction_manager_cap] (active_address w) ;;
    r <- execute 1000000000 ;;
    result <- handle_result r ;;
    print (LResult result).

End Calls.

(** ** How the process ends *)

(** The command-line framework runs a handler and ends the process:
    status 0 when the handler returns; [sys.exit(code)] for
    [typer.Exit(code)], which for a string prints it on the error stream
    and exits with status 1; the SDK's own [sys.exit(code)] passes through
    the framework, and an integer code leaves its low eight bits as the
    status (255 for -1); status 1 for an abort or any other exception. *)
Definition exit_status {A} (r : res A) : Z :=
  match r with
  | Val _ => 0
  | Exc (Exit (CodeInt n)) => n mod 256
  | Exc (SystemExit n _) => n mod 256
  | Exc _ => 1
  end.

(** The message the ending leaves on the error stream: the text given to
    [typer.Exit], or the framework's word for an abort.  [None]: nothing
    is written there (a normal return, a numeric exit code, the SDK's own
    exit, which reports on standard output), or what is written is a
    traceback, which this model does not carry. *)
Definition error_message {A} (r : res A) : option string :=
  match r with
  | Exc (Exit (CodeStr s)) => Some s
  | Exc Abort => Some "Aborted."
  | _ => None
  end.

(** ** Reading a log *)

(** The SDK requests of a log, in order. *)
Definition sdk_requests (l : list event) : list sdk_request :=
  flat_map (fun e => match e with Requested r => [r] | _ => [] end) l.

(** The transactions a log submits, each with its gas budget. *)
Definition submitted (l : list event) : list (transaction * Z) :=
  flat_map (fun e => match e with
                     | Requested (Execute tx gas) => [(tx, gas)]
                     | _ => []
                     end) l.

(** The lines a log prints. *)
Definition printed (l : list event) : list line :=
  flat_map (fun e => match e with Printed ln => [ln] | _ => [] end) l.

(** The SDK raises on no request. *)
Definition sdk_ok (w : world) : Prop := forall r, sdk_fault w r = None.




(** The commands a log asks the builder to add, in order. *)
Definition built (l : list event) : list command :=
  flat_map (fun e => match e with
                     | Requested (Build c) => [c]
                     | _ => []
                     end) l.


(** A handler rejects a request locally when it raises before it has
    asked anything of the SDK. *)
Definition rejected_locally {A} (out : list event * res A) : Prop :=
  sdk_requests (fst out) = [] /\ exists e, snd out = Exc e.

(** ** A concrete world for running the commands

    The clock stands at 2025-07-20T08:26:40Z, the two instants the runs
    below display are rendered as Python renders them, the SDK raises
    nothing and every execution succeeds. *)
Definition sample_world (r : reply) : world :=
  {| clock_ms := 1753000000000;
     isoformat_ms := fun ts =>
       if ts =? 1753000000000 then Some "2025-07-20T08:26:40+00:00"
       else if ts =? 1753660800000 then Some "2025-07-28T00:00:00+00:00"
       else None;
     confirm_reply := r;
     active_address := "0xa11ce";
     sdk_fault := fun _ => None;
     submit := fun _ _ => RpcOk "digest" |}.
(** The same surroundings with another reply at the prompt. *)
Definition with_reply (w : world) (r : reply) : world :=
  {| clock_ms := clock_ms w;
     isoformat_ms := isoformat_ms w;
     confirm_reply := r;
     active_address := active_address w;
     sdk_fault := sdk_fault w;
     submit := submit w |}.

(** ** Names for the transactions the statements below speak of *)

(** The start timestamp [create] works with after lines 59-60. *)
Definition effective_start (w : world) (start_ts : Z) : Z :=
  if start_ts =? 0 then clock_ms w else start_ts.

(** The two commands of a bid, in order. *)
Definition bid_commands (auction_id : string) (amount : Z) : transaction :=
  [SplitCoin GasCoin [amount];
   MoveCall (PACKAGE_ID ++ "::auction::bid")
     [ObjectID auction_id; Result 0; ObjectID "0x6"] []].

(** The four commands of an auction creation, in order, for a start
    timestamp [start]. *)
Definition create_commands (w : world) (name : string)
           (description : option string)
           (start end_ts reserve_price starting_price min_bid_increment : Z)
  : transaction :=
  [MoveCall (if truthy description then "0x1::option::some"
             else "0x1::option::none")
     (match description with
      | Some text => if truthy description then [SuiString text] else []
      | None => []
      end)
     ["0x1::string::String"];
   MoveCall (PACKAGE_ID ++ "::auction::new")
     [SuiString name; Result 0; SuiU64 start; SuiU64 end_ts;
      SuiU64 reserve_price; SuiU64 starting_price;
      SuiU64 min_bid_increment] [];
   MoveCall "0x2::transfer::public_share_object" [NestedResult 1 0]
     [PACKAGE_ID ++ "::auction::Auction"];
   TransferObjects [NestedResult 1 1] (active_address w)].

(** The summary [create] displays, up to and including the prompt. *)
Definition create_summary (name : string) (description : option string)
           (start end_ts : Z) (iso_start iso_end : string)
           (sui : Decimal.t) : list event :=
  [Printed (LName name); Printed (LDescription description);
   Printed (LStart start iso_start); Printed (LEnd end_ts iso_end);
   Printed (LReserve sui);
   Prompted "Please confirm the auction details:"].

(** ** Proof steps shared by the run lemmas *)

Ltac unfold_calls :=
  unfold run, SuiTransaction, split_coin, move_call, transfer_objects,
    add_command, execute, handle_result, confirm, isoformat, print,
    wrap, request, bind, emit, ret, raise, init.

Ltac case_fault :=
  match goal with
  | |- context [sdk_fault ?w ?r] => destruct (sdk_fault w r) eqn:?; cbn
  end.

(** Closes a goal [In x l -> _] when no element of the concrete list [l]
    can be [x]. *)
Ltac no_such_event :=
  let H := fresh "H" in
  cbn; intros H;
  repeat (destruct H as [H|H]; [discriminate H|]); destruct H.

(** The six branches a run of [create] can leave by before it asks the
    SDK for anything, and the SDK's answers after that, for each form of
    the description: one goal per path, each with its log spelled out. *)
Ltac create_paths w start_ts end_ts :=
  unfold create, decimal_div, create_commands, effective_start;
  let st := fresh "st" in
  set (st := if start_ts =? 0 then clock_ms w else start_ts) in *;
  destruct (Z.gtb_spec st end_ts);
  [|unfold_calls;
    destruct (isoformat_ms w st) eqn:?;
    [destruct (isoformat_ms w end_ts) eqn:?;
     [destruct (Decimal.truediv _ _) eqn:?;
      [destruct (confirm_reply w) eqn:?;
       [match goal with
        | |- context [truthy ?d] => destruct d as [[|? ?]|]
        end;
        cbn; repeat case_fault; try (destruct (submit w _ _) eqn:?; cbn)
       |cbn]
      |cbn]
     |cbn]
    |cbn]].

(** Closes a goal [In x l -> _] when no element of the concrete list [l]
    can be [x], and fails otherwise. *)
Ltac absent_event :=
  let H := fresh "H" in
  cbn; intros H;
  repeat (destruct H as [H|H]; [discriminate H|]); exfalso; exact H.

(** The paths of [bid]: one goal per answer of the SDK. *)
Ltac bid_paths w :=
  unfold bid, bid_commands; unfold_calls; cbn;
  repeat case_fault; try (destruct (submit w _ _) eqn:?; cbn).

(** ** More concrete worlds

    [sample_world] with executions that fail, and with an SDK that
    raises when asked to add a coin split. *)
Definition failing_world (r : reply) : world :=
  {| clock_ms := clock_ms (sample_world r);
     isoformat_ms := isoformat_ms (sample_world r);
     confirm_reply := r;
     active_address := active_address (sample_world r);
     sdk_fault := fun _ => None;
     submit := fun _ _ => RpcErr "InsufficientGas" |}.

Definition refusing_world (r : reply) : world :=
  {| clock_ms := clock_ms (sample_world r);
     isoformat_ms := isoformat_ms (sample_world r);
     confirm_reply := r;
     active_address := active_address (sample_world r);
     sdk_fault := fun q => match q with
                           | Build (SplitCoin _ _) => Some "invalid amount"
                           | _ => None
                           end;
     submit := fun _ _ => RpcOk "digest" |}.

(** [sample_world] with an SDK whose [SuiU64] refuses an integer outside
    the unsigned 64-bit range. *)
Definition checking_world (r : reply) : world :=
  {| clock_ms := clock_ms (sample_world r);
     isoformat_ms := isoformat_ms (sample_world r);
     confirm_reply := r;
     active_address := active_address (sample_world r);
     sdk_fault := fun q => match q with
                           | Wrap (SuiU64 n) =>
                               if (0 <=? n) && (n <? 2 ^ 64) then None
                               else Some "value out of range"
                           | _ => None
                           end;
     submit := fun _ _ => RpcOk "digest" |}.

(** ** More vocabulary for logs and transactions *)

(** The same surroundings with another clock reading. *)
Definition with_clock (w : world) (now : Z) : world :=
  {| clock_ms := now;
     isoformat_ms := isoformat_ms w;
     confirm_reply := confirm_reply w;
     active_address := active_address w;
     sdk_fault := sdk_fault w;
     submit := submit w |}.

(** The command whose result an argument stands for, if it stands for
    one. *)
Definition referred (a : argument) : option nat :=
  match a with
  | Result i => Some i
  | NestedResult i _ => Some i
  | _ => None
  end.

(** The arguments a command consumes. *)
Definition command_arguments (c : command) : list argument :=
  match c with
  | SplitCoin coin _ => [coin]
  | MoveCall _ arguments _ => arguments
  | TransferObjects transfers _ => transfers
  end.

(** Every result used by a command of [tx] is the result of a command
    that stands before it; [base] is the position of the head of [tx]. *)
Fixpoint well_scoped_from (base : nat) (tx : transaction) : bool :=
  match tx with
  | [] => true
  | c :: tx' =>
      forallb (fun a => match referred a with
                        | Some i => Nat.ltb i base
                        | None => true
                        end) (command_arguments c)
      && well_scoped_from (S base) tx'
  end.

Definition well_scoped (tx : transaction) : bool := well_scoped_from 0 tx.

(** In the log [l], no SDK request stands before the first prompt. *)
Fixpoint prompt_precedes_requests (l : list event) : bool :=
  match l with
  | [] => true
  | Printed _ :: l' => prompt_precedes_requests l'
  | Prompted _ :: _ => true
  | Requested _ :: _ => false
  end.

(** The last step of a log. *)
Definition last_event (l : list event) : option event :=
  match rev l with
  | [] => None
  | e :: _ => Some e
  end.

(** * Properties *)

(** ** The decimal model *)

Module DecimalFacts.
Import Decimal.

(** With enough fuel the digit count [d] of [n > 0] brackets it:
    [10^(d-1) <= n < 10^d]. *)
Lemma ndigits_aux_bounds (fuel : nat) : forall n,
  0 < n < 10 ^ (Z.of_nat fuel + 1) ->
  10 ^ (ndigits_aux fuel n - 1) <= n < 10 ^ ndigits_aux fuel n
  /\ 1 <= ndigits_aux fuel n.
Proof.
  induction fuel as [|fuel IH]; intros n Hn.
  - cbn [ndigits_aux Z.of_nat]. change (10 ^ (0 + 1)) with 10 in Hn. change (10 ^ 1) with 10. change (10 ^ (1 - 1)) with 1. lia.
  - cbn [ndigits_aux]. destruct (Z.ltb_spec n 10) as [Hlt|Hge].
    + change (10 ^ 1) with 10. change (10 ^ (1 - 1)) with 1. lia.
    + assert (Hq : 0 < n / 10 < 10 ^ (Z.of_nat fuel + 1)).
      { rewrite Nat2Z.inj_succ in Hn.
        replace (Z.succ (Z.of_nat fuel) + 1) with (Z.succ (Z.of_nat fuel + 1)) in Hn by lia.
        rewrite Z.pow_succ_r in Hn by lia. Z.div_mod_to_equations. lia. }
      destruct (IH _ Hq) as [[Hlo Hhi] Hone].
      set (a := ndigits_aux fuel (n / 10)) in *.
      replace (1 + a - 1) with (Z.succ (a - 1)) by lia.
      replace (1 + a) with (Z.succ a) by lia.
      rewrite !Z.pow_succ_r by lia. Z.div_mod_to_equations. lia.
Qed.

(** The fuel [ndigits] takes is enough. *)
Lemma ndigits_bounds n :
  0 < n -> 10 ^ (ndigits n - 1) <= n < 10 ^ ndigits n /\ 1 <= ndigits n.
Proof.
  intros Hn. unfold ndigits. apply ndigits_aux_bounds. split; [lia|].
  rewrite Z2Nat.id by apply Z.log2_nonneg.
  destruct (Z.log2_spec n Hn) as [_ Hhi].
  eapply Z.lt_le_trans; [exact Hhi|].
  replace (Z.succ (Z.log2 n)) with (Z.log2 n + 1) by lia.
  apply Z.pow_le_mono_l. lia.
Qed.

(** A number below [10^k] has at most [k] digits. *)
Lemma ndigits_le n k : 0 < n < 10 ^ k -> ndigits n <= k.
Proof.
  intros [Hn Hk]. destruct (ndigits_bounds n Hn) as [[Hlo _] Hone].
  destruct (Z.le_gt_cases (ndigits n) k) as [|Hgt]; [assumption|exfalso].
  assert (10 ^ k <= 10 ^ (ndigits n - 1)) by (apply Z.pow_le_mono_r; lia).
  lia.
Qed.

(** The loop keeps the value [c * 10^e] and never lowers the exponent. *)
Lemma strip_zeros_value turns ideal : forall c e c' e',
  strip_zeros turns ideal c e = (c', e') ->
  e <= e' /\ c = c' * 10 ^ (e' - e).
Proof.
  induction turns as [|turns IH]; intros c e c' e' H; cbn [strip_zeros] in H.
  - inversion H; subst. rewrite Z.sub_diag. cbn. lia.
  - destruct ((e <? ideal) && (c mod 10 =? 0)) eqn:Hc.
    + apply andb_prop in Hc. destruct Hc as [_ Hm]. apply Z.eqb_eq in Hm.
      destruct (IH _ _ _ _ H) as [Hle Hv]. split; [lia|].
      replace (e' - e) with (Z.succ (e' - (e + 1))) by lia.
      rewrite Z.pow_succ_r by lia.
      rewrite (Z.div_mod c 10) by lia. rewrite Hm, Hv at 1. lia.
    + inversion H; subst. rewrite Z.sub_diag. cbn. lia.
Qed.

(** The loop never passes the ideal exponent. *)
Lemma strip_zeros_le_ideal turns ideal : forall c e c' e',
  e <= ideal -> strip_zeros turns ideal c e = (c', e') -> e' <= ideal.
Proof.
  induction turns as [|turns IH]; intros c e c' e' Hle H; cbn [strip_zeros] in H.
  - inversion H; subst; assumption.
  - destruct ((e <? ideal) && (c mod 10 =? 0)) eqn:Hc.
    + apply andb_prop in Hc. destruct Hc as [Hlt _]. apply Z.ltb_lt in Hlt.
      eapply IH; [|exact H]; lia.
    + inversion H; subst; assumption.
Qed.

(** A coefficient ending in [k] zeros loses them all, as far as the
    ideal exponent and the turns allow. *)
Lemma strip_zeros_progress (k : nat) : forall turns ideal m e c' e',
  (k <= turns)%nat -> e + Z.of_nat k <= ideal ->
  strip_zeros turns ideal (m * 10 ^ Z.of_nat k) e = (c', e') ->
  e + Z.of_nat k <= e'.
Proof.
  induction k as [|k IH]; intros turns ideal m e c' e' Hk Hid H.
  - apply strip_zeros_value in H. cbn. lia.
  - destruct turns as [|turns]; [lia|]. cbn [strip_zeros] in H.
    rewrite Nat2Z.inj_succ in *. rewrite Z.pow_succ_r in H by lia.
    replace (m * (10 * 10 ^ Z.of_nat k)) with (m * 10 ^ Z.of_nat k * 10) in H by lia.
    rewrite Z.mod_mul, Z.div_mul in H by lia.
    replace (e <? ideal) with true in H by (symmetry; apply Z.ltb_lt; lia).
    cbn in H. apply IH in H; lia.
Qed.

(** Dividing an integer of at most [prec] digits by [10^9] is exact. *)
Lemma truediv_pow9_exact rp :
  0 < rp < 10 ^ 28 ->
  exists c e,
    truediv (of_int rp) (of_int 1000000000) = Some (mk false c e)
    /\ -9 <= e <= 0 /\ rp = c * 10 ^ (e + 9).
Proof.
  intros [Hpos Hlt].
  destruct (ndigits_bounds rp Hpos) as [_ Hone].
  pose proof (ndigits_le rp 28 (conj Hpos Hlt)) as Hlen.
  unfold truediv, div_raw, of_int. cbn [sign coeff exp].
  replace (rp <? 0) with false by (symmetry; apply Z.ltb_ge; lia).
  rewrite (Z.abs_eq rp) by lia.
  replace (rp =? 0) with false by (symmetry; apply Z.eqb_neq; lia).
  change (Z.abs 1000000000) with 1000000000.
  change (ndigits 1000000000) with 10.
  change (1000000000 <? 0) with false. cbn [xorb]. unfold prec.
  set (L := ndigits rp) in *.
  set (shift := 10 - L + 28 + 1).
  assert (Hshift : 11 <= shift <= 38) by (unfold shift; lia).
  replace (0 <=? shift) with true by (symmetry; apply Z.leb_le; lia).
  assert (Hnum : rp * 10 ^ shift = rp * 10 ^ (shift - 9) * 1000000000).
  { replace shift with ((shift - 9) + 9) at 1 by lia.
    rewrite Z.pow_add_r by lia. change (10 ^ 9) with 1000000000. lia. }
  rewrite Hnum, Z.mod_mul, Z.div_mul by lia. cbn [Z.eqb].
  replace (0 - 0 - shift) with (- shift) by lia.
  replace (0 - 0 - - shift) with shift by lia.
  destruct (strip_zeros (Z.to_nat shift) (0 - 0) (rp * 10 ^ (shift - 9)) (- shift))
    as [c' e'] eqn:Hs.
  change (0 - 0) with 0 in Hs.
  pose proof (strip_zeros_value _ _ _ _ _ _ Hs) as [Hle Hval].
  assert (Hid : e' <= 0) by (eapply strip_zeros_le_ideal; [|exact Hs]; lia).
  assert (Hpr : - shift + Z.of_nat (Z.to_nat (shift - 9)) <= e').
  { eapply strip_zeros_progress; [| |rewrite Z2Nat.id by lia; exact Hs]; lia. }
  rewrite Z2Nat.id in Hpr by lia.
  assert (Hrp : rp = c' * 10 ^ (e' + 9)).
  { replace (e' - - shift) with ((e' + 9) + (shift - 9)) in Hval by lia.
    rewrite Z.pow_add_r, Z.mul_assoc in Hval by lia.
    apply Z.mul_cancel_r in Hval; [exact Hval|].
    apply Z.pow_nonzero; lia. }
  assert (Hc' : 0 < c' <= rp).
  { assert (0 < 10 ^ (e' + 9)) by (apply Z.pow_pos_nonneg; lia). nia. }
  exists c', e'. split; [|split; [lia|exact Hrp]].
  unfold fix_. cbn [sign coeff exp].
  replace (c' =? 0) with false by (symmetry; apply Z.eqb_neq; lia).
  pose proof (ndigits_le c' 28 ltac:(lia)) as Hlen'.
  destruct (ndigits_bounds c' ltac:(lia)) as [_ Hone'].
  unfold Etop, Etiny, Emax, Emin, prec.
  replace (999999 - 28 + 1 <? ndigits c' + e' - 28) with false
    by (symmetry; apply Z.ltb_ge; lia).
  replace (e' <? Z.max (ndigits c' + e' - 28) (-999999 - 28 + 1)) with false
    by (symmetry; apply Z.ltb_ge; lia).
  reflexivity.
Qed.

(** The quotient shown for a reserve price of at most 28 digits is the
    exact rational [rp / 10^9]. *)
Lemma truediv_pow9_value rp :
  0 <= rp < 10 ^ 28 ->
  exists sui,
    truediv (of_int rp) (of_int 1000000000) = Some sui
    /\ to_Q sui == rp # 1000000000.
Proof.
  intros [Hnn Hlt]. destruct (Z.eq_dec rp 0) as [->|Hnz].
  - exists (mk false 0 0). split; reflexivity.
  - destruct (truediv_pow9_exact rp ltac:(lia)) as (c & e & Hdiv & He & Hrp).
    exists (mk false c e). split; [exact Hdiv|].
    unfold to_Q, Qeq. cbn [sign coeff exp Qnum Qden].
    rewrite (Z.max_l 0 e), (Z.max_r 0 (- e)) by lia.
    rewrite Z2Pos.id by (apply Z.pow_pos_nonneg; lia).
    change (Z.pos 1000000000) with (10 ^ 9).
    rewrite Hrp. change (10 ^ 0) with 1.
    replace (10 ^ 9) with (10 ^ (e + 9) * 10 ^ (- e)); [lia|].
    rewrite <- Z.pow_add_r by lia. f_equal. lia.
Qed.

(** Past 28 digits the quotient is rounded: [10^28 + 1] is shown as
    [10^19] exactly. *)
Example truediv_rounds_past_28_digits :
  exists sui,
    truediv (of_int (10 ^ 28 + 1)) (of_int 1000000000) = Some sui
    /\ to_Q sui == 10 ^ 19 # 1
    /\ ~ to_Q sui == (10 ^ 28 + 1) # 1000000000.
Proof.
  exists (mk false 1000000000000000000000000000 (-8)).
  split; [vm_compute; reflexivity|]. split; [reflexivity|].
  unfold to_Q, Qeq. cbn [sign coeff exp Qnum Qden]. vm_compute. discriminate.
Qed.

End DecimalFacts.

(** ** The runs of [bid] *)

(** With an SDK that raises nothing, the whole run of [bid]. *)
Lemma bid_run_ok w auction_id amount :
  sdk_ok w ->
  let tx := bid_commands auction_id amount in
  let steps :=
    [Requested (NewTransaction (Some true) (Some true));
     Requested (Build (SplitCoin GasCoin [amount]));
     Requested (Build (MoveCall (PACKAGE_ID ++ "::auction::bid")
                         [ObjectID auction_id; Result 0; ObjectID "0x6"] []));
     Requested (Execute tx 1000000000)] in
  run (bid w auction_id amount) =
    match submit w tx 1000000000 with
    | RpcOk payload => ((steps ++ [Printed (LResult payload)])%list, Val tt)
    | RpcErr msg =>
        (steps, Exc (SystemExit (-1) ("Error in result: " ++ msg)))
    end.
Proof.
  intros Hok. unfold bid, bid_commands. unfold_calls. cbn.
  repeat (rewrite Hok; cbn).
  destruct (submit w _ _); reflexivity.
Qed.

(** Whatever the SDK does, [bid] submits nothing but its two commands
    under its one budget. *)
Lemma bid_submitted w auction_id amount tx gas :
  In (tx, gas) (submitted (fst (run (bid w auction_id amount)))) ->
  tx = bid_commands auction_id amount /\ gas = 1000000000.
Proof.
  unfold bid, bid_commands. unfold_calls. cbn.
  repeat case_fault; try tauto.
  - intros [H|[]]. inversion H. split; reflexivity.
  - destruct (submit w _ _); cbn; intros [H|[]]; inversion H; split; reflexivity.
Qed.

(** The first thing [bid] does is ask the SDK for a builder. *)
Lemma bid_first_step w auction_id amount :
  exists rest,
    fst (run (bid w auction_id amount)) =
      Requested (NewTransaction (Some true) (Some true)) :: rest.
Proof.
  unfold bid. unfold_calls. cbn.
  repeat case_fault; try (destruct (submit w _ _); cbn); eexists; reflexivity.
Qed.

(** ** The runs of [create] *)

Section CreateRuns.
Variables (w : world) (name : string) (description : option string).
Variables (start_ts end_ts reserve_price starting_price
             min_bid_increment : Z).

Local Abbreviation out :=
  (run (create w name description start_ts end_ts reserve_price
          starting_price min_bid_increment)).
Local Abbreviation start' := (effective_start w start_ts).
Local Abbreviation tx :=
  (create_commands w name description (effective_start w start_ts) end_ts
     reserve_price starting_price min_bid_increment).
Local Abbreviation quotient :=
  (Decimal.truediv (Decimal.of_int reserve_price)
     (Decimal.of_int 1000000000)).

(** A start after the end: nothing happens but the exit. *)
Lemma create_late :
  end_ts < start' ->
  out = ([], Exc (Exit (CodeStr
               "Start timestamp must be before end timestamp."))).
Proof.
  intros Hlt. unfold create, effective_start in *.
  destruct (Z.gtb_spec (if start_ts =? 0 then clock_ms w else start_ts) end_ts);
    [reflexivity|lia].
Qed.

(** The whole run when the summary can be displayed, the prompt is
    answered (either way) and the SDK raises nothing. *)
Lemma create_run_ok iso_start iso_end sui yes :
  start' <= end_ts ->
  isoformat_ms w start' = Some iso_start ->
  isoformat_ms w end_ts = Some iso_end ->
  quotient = Some sui ->
  confirm_reply w = Answer yes ->
  sdk_ok w ->
  let steps :=
    (create_summary name description start' end_ts iso_start iso_end sui
     ++ Requested (NewTransaction (Some true) None)
     :: map (fun c => Requested (Build c)) tx
     ++ [Requested (Execute tx 1000000000)])%list in
  out = match submit w tx 1000000000 with
        | RpcOk payload =>
            ((steps ++ [Printed (LResult payload)])%list, Val tt)
        | RpcErr msg =>
            (steps, Exc (SystemExit (-1) ("Error in result: " ++ msg)))
        end.
Proof.
  unfold create, decimal_div, create_commands, create_summary, effective_start.
  set (st := if start_ts =? 0 then clock_ms w else start_ts).
  intros Hle H1 H2 H3 H4 Hok.
  destruct (Z.gtb_spec st end_ts) as [Hgt|_]; [lia|].
  unfold_calls. rewrite H1, H2, H3, H4.
  destruct description as [[|a text]|]; cbn;
    repeat (rewrite Hok; cbn);
    destruct (submit w _ _); reflexivity.
Qed.


(** The prompt is shown only after the ordering check has passed and the
    summary has been rendered. *)
Lemma create_prompted text :
  In (Prompted text) (fst out) ->
  start' <= end_ts
  /\ (exists iso, isoformat_ms w start' = Some iso)
  /\ (exists iso, isoformat_ms w end_ts = Some iso)
  /\ (exists sui, quotient = Some sui).
Proof.
  unfold create, decimal_div, effective_start.
  set (st := if start_ts =? 0 then clock_ms w else start_ts).
  destruct (Z.gtb_spec st end_ts) as [Hgt|Hle]; [intros []|].
  unfold_calls.
  destruct (isoformat_ms w st) as [i1|]; [|no_such_event].
  destruct (isoformat_ms w end_ts) as [i2|]; [|no_such_event].
  destruct (Decimal.truediv _ _) as [d|]; [|no_such_event].
  intros _. repeat split; try assumption; eexists; reflexivity.
Qed.

(** Whatever happens, the build requests of a run are the first few of
    the four commands, and there is none unless the ordering check has
    passed. *)
Lemma create_built_prefix :
  (exists rest, (built (fst out) ++ rest)%list = tx)
  /\ (built (fst out) <> [] -> start' <= end_ts).
Proof.
  unfold create, decimal_div, create_commands, effective_start.
  set (st := if start_ts =? 0 then clock_ms w else start_ts).
  destruct (Z.gtb_spec st end_ts) as [Hgt|Hle].
  { split; [eexists; reflexivity|intros H; contradiction H; reflexivity]. }
  split; [|intros _; exact Hle].
  unfold_calls.
  destruct (isoformat_ms w st); [|eexists; reflexivity].
  destruct (isoformat_ms w end_ts); [|eexists; reflexivity].
  destruct (Decimal.truediv _ _); [|eexists; reflexivity].
  destruct (confirm_reply w); [|eexists; reflexivity].
  destruct description as [[|a text]|]; cbn;
    repeat case_fault; try (destruct (submit w _ _); cbn);
    eexists; reflexivity.
Qed.

(** Whatever happens, [create] submits nothing but its four commands
    under its one budget. *)
Lemma create_submitted tx' gas :
  In (tx', gas) (submitted (fst out)) ->
  tx' = tx /\ gas = 1000000000 /\ start' <= end_ts.
Proof.
  unfold create, decimal_div, create_commands, effective_start.
  set (st := if start_ts =? 0 then clock_ms w else start_ts).
  destruct (Z.gtb_spec st end_ts) as [Hgt|Hle]; [intros []|].
  unfold_calls.
  destruct (isoformat_ms w st); [|intros []].
  destruct (isoformat_ms w end_ts); [|intros []].
  destruct (Decimal.truediv _ _); [|intros []].
  destruct (confirm_reply w); [|intros []].
  destruct description as [[|a text]|]; cbn;
    repeat case_fault; try (destruct (submit w _ _); cbn);
    intros H; repeat (destruct H as [H|H]; [inversion H; auto|]);
    destruct H.
Qed.

(** The reserve line shows the quotient [Decimal] computes. *)
Lemma create_printed_reserve sui :
  In (LReserve sui) (printed (fst out)) -> quotient = Some sui.
Proof.
  unfold create, decimal_div, effective_start.
  set (st := if start_ts =? 0 then clock_ms w else start_ts).
  destruct (Z.gtb_spec st end_ts) as [Hgt|Hle]; [intros []|].
  unfold_calls.
  destruct (isoformat_ms w st); [|no_such_event].
  destruct (isoformat_ms w end_ts); [|no_such_event].
  destruct (Decimal.truediv _ _) as [d|]; [|no_such_event].
  destruct (confirm_reply w); cbn.
  - destruct description as [[|a text]|]; cbn;
      repeat case_fault; try (destruct (submit w _ _); cbn);
      intros H;
      repeat (destruct H as [H|H];
              [try discriminate H; inversion H; reflexivity|]);
      destruct H.
  - intros H;
      repeat (destruct H as [H|H];
              [try discriminate H; inversion H; reflexivity|]);
      destruct H.
Qed.

(** The answer given at the prompt changes nothing: the run after a
    "no" is the run after a "yes". *)
Lemma create_answer_ignored (a b : bool) :
  run (create (with_reply w (Answer a)) name description start_ts end_ts
         reserve_price starting_price min_bid_increment)
  = run (create (with_reply w (Answer b)) name description start_ts end_ts
           reserve_price starting_price min_bid_increment).
Proof. reflexivity. Qed.

End CreateRuns.

(** ** Consequences of the run lemmas used by several claims *)

(** The [i]-th build request of [create], when there is one, is the
    [i]-th of the four commands. *)
Lemma create_built_nth w name description start_ts end_ts reserve_price
      starting_price min_bid_increment i c :
  nth_error (built (fst (run (create w name description start_ts end_ts
                                reserve_price starting_price
                                min_bid_increment)))) i = Some c ->
  nth_error (create_commands w name description
               (effective_start w start_ts) end_ts reserve_price
               starting_price min_bid_increment) i = Some c
  /\ effective_start w start_ts <= end_ts.
Proof.
  intros Hnth.
  destruct (create_built_prefix w name description start_ts end_ts
              reserve_price starting_price min_bid_increment)
    as [[rest Hrest] Hle].
  split.
  - rewrite <- Hrest, nth_error_app1; [exact Hnth|].
    apply nth_error_Some. rewrite Hnth. discriminate.
  - apply Hle. intros Hnil. rewrite Hnil in Hnth. destruct i; discriminate.
Qed.

(** Once the prompt has been shown and answered, and with an SDK that
    raises nothing, all four commands are requested and submitted. *)
Lemma create_answered w name description start_ts end_ts reserve_price
      starting_price min_bid_increment text yes :
  let out := run (create w name description start_ts end_ts reserve_price
                    starting_price min_bid_increment) in
  let tx := create_commands w name description (effective_start w start_ts)
              end_ts reserve_price starting_price min_bid_increment in
  In (Prompted text) (fst out) ->
  confirm_reply w = Answer yes ->
  sdk_ok w ->
  built (fst out) = tx
  /\ sdk_requests (fst out) =
       (NewTransaction (Some true) None
        :: map Build tx ++ [Execute tx 1000000000])%list
  /\ submitted (fst out) = [(tx, 1000000000)]
  /\ match submit w tx 1000000000 with
     | RpcOk payload =>
         (exists steps,
            fst out = (steps ++ [Requested (Execute tx 1000000000);
                                 Printed (LResult payload)])%list)
         /\ snd out = Val tt
     | RpcErr msg =>
         snd out = Exc (SystemExit (-1) ("Error in result: " ++ msg))
     end.
Proof.
  intros out tx Hprompt Hyes Hok.
  destruct (create_prompted _ _ _ _ _ _ _ _ _ Hprompt)
    as (Hle & [i1 H1] & [i2 H2] & [sui H3]).
  subst out tx.
  rewrite (create_run_ok _ _ _ _ _ _ _ _ i1 i2 sui yes Hle H1 H2 H3 Hyes Hok).
  destruct (submit w _ _) as [payload|msg]; cbn;
    repeat split; try reflexivity.
  exists (create_summary name description (effective_start w start_ts)
            end_ts i1 i2 sui
          ++ Requested (NewTransaction (Some true) None)
          :: map (fun c => Requested (Build c))
               (create_commands w name description
                  (effective_start w start_ts) end_ts reserve_price
                  starting_price min_bid_increment))%list.
  reflexivity.
Qed.

(** * The claims *)

(** ** C1 *)

(** C1 (the code departs from the claim).  The claim: when the user
    declines the confirmation prompt, no transaction is built or submitted
    and the process exits non-zero.  The run below answers "no" to
    [create "Prime Machin x Arttoo" --start-ts 0 --end-ts 1753660800000
    --reserve-price 1000000000]: the answer is read and dropped, the four
    commands are built and submitted, the result is printed and the
    process exits with status 0. *)
Theorem create_declined_still_submits :
  let out := run (create (sample_world (Answer false))
                    "Prime Machin x Arttoo" None 0 1753660800000
                    1000000000 0 0) in
  In (Prompted "Please confirm the auction details:") (fst out)
  /\ submitted (fst out) =
       [([MoveCall "0x1::option::none" [] ["0x1::string::String"];
          MoveCall (PACKAGE_ID ++ "::auction::new")
            [SuiString "Prime Machin x Arttoo"; Result 0;
             SuiU64 1753000000000; SuiU64 1753660800000;
             SuiU64 1000000000; SuiU64 0; SuiU64 0] [];
          MoveCall "0x2::transfer::public_share_object" [NestedResult 1 0]
            [PACKAGE_ID ++ "::auction::Auction"];
          TransferObjects [NestedResult 1 1] "0xa11ce"], 1000000000)]
  /\ snd out = Val tt
  /\ exit_status (snd out) = 0.
Proof.
  vm_compute. repeat split. do 5 right. left. reflexivity.
Qed.

(** ** C2 *)

(** C2, as stated, fails: a bid of amount 0 is not rejected by the
    command; with an SDK that accepts it the split of 0 and the bid call
    are built and submitted, and the command returns normally. *)
Lemma bid_zero_amount_is_submitted :
  let out := run (bid (sample_world NoAnswer) "0xabc" 0) in
  ~ rejected_locally out
  /\ submitted (fst out) =
       [([SplitCoin GasCoin [0];
          MoveCall (PACKAGE_ID ++ "::auction::bid")
            [ObjectID "0xabc"; Result 0; ObjectID "0x6"] []], 1000000000)]
  /\ snd out = Val tt.
Proof.
  vm_compute. split; [|split; reflexivity].
  intros [H _]. discriminate H.
Qed.

(** C2, amended.  [bid] checks nothing about the amount: for every integer
    amount, positive or not, it never rejects the request itself (its
    first step is an SDK request), and when the SDK raises nothing it
    submits the split of exactly that amount followed by the bid call. *)
Theorem bid_checks_no_amount w auction_id amount :
  ~ rejected_locally (run (bid w auction_id amount))
  /\ (sdk_ok w ->
      submitted (fst (run (bid w auction_id amount))) =
        [([SplitCoin GasCoin [amount];
           MoveCall (PACKAGE_ID ++ "::auction::bid")
             [ObjectID auction_id; Result 0; ObjectID "0x6"] []],
          1000000000)]).
Proof.
  split.
  - intros [Hnone _].
    destruct (bid_first_step w auction_id amount) as [rest Hrest].
    rewrite Hrest in Hnone. discriminate Hnone.
  - intros Hok. rewrite (bid_run_ok w auction_id amount Hok).
    destruct (submit w _ _); reflexivity.
Qed.

(** A bid of -5 against an SDK that raises nothing is built and submitted
    like any other. *)
Lemma bid_checks_no_amount_witness :
  submitted (fst (run (bid (sample_world NoAnswer) "0xabc" (-5)))) =
    [([SplitCoin GasCoin [-5];
       MoveCall (PACKAGE_ID ++ "::auction::bid")
         [ObjectID "0xabc"; Result 0; ObjectID "0x6"] []], 1000000000)].
Proof.
  apply (proj2 (bid_checks_no_amount (sample_world NoAnswer) "0xabc" (-5))).
  intros r. reflexivity.
Defined.

(** ** C3 *)

(** C3, as stated, fails: a description that is present but empty
    ([--description ''], the value [Some ""]) does not produce the "some"
    variant carrying that text; the option is constructed with the "none"
    variant and no argument. *)
Lemma create_empty_description_builds_none :
  let out := run (create (sample_world (Answer true)) "Prime Machin x Arttoo"
                    (Some "") 0 1753660800000 1000000000 0 0) in
  nth_error (built (fst out)) 0 =
    Some (MoveCall "0x1::option::none" [] ["0x1::string::String"])
  /\ nth_error (built (fst out)) 0 <>
       Some (MoveCall "0x1::option::some" [SuiString ""]
               ["0x1::string::String"]).
Proof.
  vm_compute. split; [reflexivity|discriminate].
Qed.

(** C3, amended.  Whenever [create] makes its option-construction call
    (the first command it asks the builder for): an absent or an empty
    description makes it the "none" variant with no argument, and every
    present, non-empty description makes it the "some" variant carrying
    exactly that text. *)
Theorem create_description_variant w name description start_ts end_ts
        reserve_price starting_price min_bid_increment c :
  nth_error (built (fst (run (create w name description start_ts end_ts
                                reserve_price starting_price
                                min_bid_increment)))) 0 = Some c ->
  (description = None \/ description = Some "" ->
   c = MoveCall "0x1::option::none" [] ["0x1::string::String"])
  /\ (forall text, description = Some text -> text <> "" ->
      c = MoveCall "0x1::option::some" [SuiString text]
            ["0x1::string::String"]).
Proof.
  intros Hnth. apply create_built_nth in Hnth. destruct Hnth as [Hnth _].
  cbn in Hnth. injection Hnth as <-. split.
  - intros [->| ->]; reflexivity.
  - intros text -> Hne. destruct text as [|a text]; [contradiction Hne; reflexivity|].
    reflexivity.
Qed.

(** A run with a non-empty description: the first command requested is
    the "some" variant carrying it. *)
Lemma create_description_variant_witness :
  nth 0 (built (fst (run (create (sample_world (Answer true))
                            "Prime Machin x Arttoo"
                            (Some "A collaboration of Studio Mirai and Arttoo")
                            0 1753660800000 1000000000 0 0))))
      (SplitCoin GasCoin [])
  = MoveCall "0x1::option::some"
      [SuiString "A collaboration of Studio Mirai and Arttoo"]
      ["0x1::string::String"].
Proof.
  refine (proj2 (create_description_variant (sample_world (Answer true))
                   "Prime Machin x Arttoo"
                   (Some "A collaboration of Studio Mirai and Arttoo")
                   0 1753660800000 1000000000 0 0 _ _) _ eq_refl _).
  - vm_compute. reflexivity.
  - discriminate.
Defined.

(** ** C4 *)

(** C4.  With [--start-ts 0] the start timestamp is the clock reading:
    the ordering check is applied to it (the command exits, having done
    nothing, when the reading exceeds [end_ts]); whenever the
    auction-construction call is made its start argument is the reading,
    which then is at most [end_ts]; and the call is made once the prompt
    has been answered and the SDK raises nothing. *)
Theorem create_zero_start_uses_clock w name description end_ts
        reserve_price starting_price min_bid_increment :
  let out := run (create w name description 0 end_ts reserve_price
                    starting_price min_bid_increment) in
  let call :=
    MoveCall (PACKAGE_ID ++ "::auction::new")
      [SuiString name; Result 0; SuiU64 (clock_ms w); SuiU64 end_ts;
       SuiU64 reserve_price; SuiU64 starting_price;
       SuiU64 min_bid_increment] [] in
  (end_ts < clock_ms w ->
   out = ([], Exc (Exit (CodeStr
                "Start timestamp must be before end timestamp."))))
  /\ (forall c, nth_error (built (fst out)) 1 = Some c ->
      c = call /\ clock_ms w <= end_ts)
  /\ (forall text yes,
      In (Prompted text) (fst out) -> confirm_reply w = Answer yes ->
      sdk_ok w ->
      nth_error (built (fst out)) 1 = Some call).
Proof.
  intros out call. subst out call. split; [|split].
  - intros Hlt. apply create_late. exact Hlt.
  - intros c Hnth. apply create_built_nth in Hnth.
    destruct Hnth as [Hnth Hle]. cbn in Hnth. injection Hnth as <-.
    split; [reflexivity|exact Hle].
  - intros text yes Hprompt Hyes Hok.
    destruct (create_answered _ _ _ _ _ _ _ _ _ _ Hprompt Hyes Hok)
      as [Hbuilt _].
    rewrite Hbuilt. reflexivity.
Qed.

(** The spec's example run: [--start-ts 0] with the clock at
    1753000000000 puts that reading into the auction-construction call. *)
Lemma create_zero_start_uses_clock_witness :
  nth_error
    (built (fst (run (create (sample_world (Answer true))
                        "Prime Machin x Arttoo" None 0 1753660800000
                        1000000000 0 0)))) 1
  = Some (MoveCall (PACKAGE_ID ++ "::auction::new")
            [SuiString "Prime Machin x Arttoo"; Result 0;
             SuiU64 1753000000000; SuiU64 1753660800000;
             SuiU64 1000000000; SuiU64 0; SuiU64 0] []).
Proof.
  refine (proj2 (proj2 (create_zero_start_uses_clock
                          (sample_world (Answer true))
                          "Prime Machin x Arttoo" None 1753660800000
                          1000000000 0 0))
            "Please confirm the auction details:" true _ eq_refl _).
  - vm_compute. do 5 right. left. reflexivity.
  - intros r. reflexivity.
Defined.

(** ** C5 *)

(** C5.  When the start timestamp, after the substitution of the clock
    reading for 0, is strictly greater than [end_ts], [create] does
    nothing at all (no output, no prompt, no SDK request) and raises
    [typer.Exit] with its message, which ends the process with the
    message on the error stream and status 1. *)
Theorem create_rejects_start_after_end w name description start_ts end_ts
        reserve_price starting_price min_bid_increment :
  end_ts < (if start_ts =? 0 then clock_ms w else start_ts) ->
  let out := run (create w name description start_ts end_ts reserve_price
                    starting_price min_bid_increment) in
  out = ([], Exc (Exit (CodeStr
               "Start timestamp must be before end timestamp.")))
  /\ sdk_requests (fst out) = []
  /\ exit_status (snd out) = 1
  /\ error_message (snd out) =
       Some "Start timestamp must be before end timestamp.".
Proof.
  intros Hlt out. subst out.
  rewrite (create_late w name description start_ts end_ts reserve_price
             starting_price min_bid_increment Hlt).
  repeat split.
Qed.

(** An end before the clock reading, with [--start-ts 0]: the run is the
    bare exit. *)
Lemma create_rejects_start_after_end_witness :
  run (create (sample_world (Answer true)) "Prime Machin x Arttoo" None
         0 1700000000000 1000000000 0 0)
  = ([], Exc (Exit (CodeStr
            "Start timestamp must be before end timestamp."))).
Proof.
  refine (proj1 (create_rejects_start_after_end
                   (sample_world (Answer true)) "Prime Machin x Arttoo"
                   None 0 1700000000000 1000000000 0 0 _)).
  vm_compute. reflexivity.
Defined.

(** ** C6 *)



(** ** C7 *)



(** ** C8 *)




(** ** C9 *)

(** C9.  Every transaction that [bid] submits, and every transaction that
    [create] submits, is submitted under the gas budget 1_000_000_000,
    whatever the arguments and whatever the surroundings do. *)
Theorem gas_budget_is_fixed w :
  (forall auction_id amount tx gas,
      In (tx, gas) (submitted (fst (run (bid w auction_id amount)))) ->
      gas = 1000000000)
  /\ (forall name description start_ts end_ts reserve_price starting_price
             min_bid_increment tx gas,
        In (tx, gas)
          (submitted (fst (run (create w name description start_ts end_ts
                                  reserve_price starting_price
                                  min_bid_increment)))) ->
        gas = 1000000000).
Proof.
  split.
  - intros auction_id amount tx gas H. apply bid_submitted in H. apply H.
  - intros name description start_ts end_ts reserve_price starting_price
      min_bid_increment tx gas H.
    apply create_submitted in H. apply H.
Qed.

(** The budget of the one transaction each sample run submits. *)
Lemma gas_budget_is_fixed_witness :
  snd (nth 0 (submitted (fst (run (bid (sample_world NoAnswer) "0xabc" 5))))
         ([], 0))
  = 1000000000
  /\ snd (nth 0 (submitted
                   (fst (run (create (sample_world (Answer true))
                                "Prime Machin x Arttoo" None 0
                                1753660800000 1000000000 0 0))))
            ([], 0))
     = 1000000000.
Proof.
  split.
  - refine (proj1 (gas_budget_is_fixed (sample_world NoAnswer))
              "0xabc" 5 (bid_commands "0xabc" 5) _ _).
    vm_compute. left. reflexivity.
  - refine (proj2 (gas_budget_is_fixed (sample_world (Answer true)))
              "Prime Machin x Arttoo" None 0 1753660800000 1000000000 0 0
              (create_commands (sample_world (Answer true))
                 "Prime Machin x Arttoo" None 1753000000000 1753660800000
                 1000000000 0 0) _ _).
    vm_compute. left. reflexivity.
Defined.

(** ** C10 *)

(** C10.  A description that is the empty string counts as absent: the
    test is Python truthiness, false for the empty string, so whenever
    [create] makes its option-construction call for [Some ""] it is the
    "none" variant with no argument, never the "some" variant. *)
Theorem create_empty_description_is_absent w name start_ts end_ts
        reserve_price starting_price min_bid_increment c :
  nth_error (built (fst (run (create w name (Some "") start_ts end_ts
                                reserve_price starting_price
                                min_bid_increment)))) 0 = Some c ->
  truthy (Some "") = false
  /\ c = MoveCall "0x1::option::none" [] ["0x1::string::String"]
  /\ c <> MoveCall "0x1::option::some" [SuiString ""]
            ["0x1::string::String"].
Proof.
  intros Hnth. apply create_built_nth in Hnth. destruct Hnth as [Hnth _].
  cbn in Hnth. injection Hnth as <-.
  split; [reflexivity|]. split; [reflexivity|discriminate].
Qed.

(** A run with [--description ''], whatever is answered at the prompt. *)
Lemma create_empty_description_is_absent_witness :
  nth 0 (built (fst (run (create (sample_world (Answer false)) "Auction"
                            (Some "") 1753000000000 1753660800000
                            0 0 0))))
      (SplitCoin GasCoin [])
  = MoveCall "0x1::option::none" [] ["0x1::string::String"].
Proof.
  refine (proj1 (proj2 (create_empty_description_is_absent
                          (sample_world (Answer false)) "Auction"
                          1753000000000 1753660800000 0 0 0 _ _))).
  vm_compute. reflexivity.
Defined.

(** * Further properties of the two commands *)

(** ** The reserve line past the contract's range *)

Module DecimalMore.
Import Decimal DecimalFacts.

(** The sign of the dividend only decides the sign of the quotient. *)
Lemma truediv_sign s c e b :
  truediv (mk s c e) b =
    option_map (fun d => mk (xorb s (sign d)) (coeff d) (exp d))
      (truediv (mk false c e) b).
Proof.
  unfold truediv, div_raw. cbn [sign coeff exp xorb].
  destruct (c =? 0).
  - unfold fix_. cbn [sign coeff exp]. cbn [Z.eqb option_map sign coeff exp].
    destruct (sign b); reflexivity.
  - destruct (_ mod _ =? 0).
    + destruct (strip_zeros _ _ _ _) as [c' e'].
      unfold fix_. cbn [sign coeff exp].
      repeat match goal with
             | |- context [if ?t then _ else _] => destruct t
             end; cbn; destruct (sign b); reflexivity.
    + unfold fix_. cbn [sign coeff exp].
      repeat match goal with
             | |- context [if ?t then _ else _] => destruct t
             end; cbn; destruct (sign b); reflexivity.
Qed.

(** The loop keeps a coefficient that is not negative so. *)
Lemma strip_zeros_nonneg turns ideal : forall c e c' e',
  0 <= c -> strip_zeros turns ideal c e = (c', e') -> 0 <= c'.
Proof.
  induction turns as [|turns IH]; intros c e c' e' Hc H; cbn [strip_zeros] in H.
  - inversion H; subst; assumption.
  - destruct ((e <? ideal) && (c mod 10 =? 0)).
    + eapply IH; [|exact H]. apply Z.div_pos; lia.
    + inversion H; subst; assumption.
Qed.

(** The unrounded quotient of two non-negative coefficients is not
    negative. *)
Lemma div_raw_coeff_nonneg a b :
  0 <= coeff a -> 0 < coeff b -> 0 <= coeff (div_raw a b).
Proof.
  intros Ha Hb. unfold div_raw.
  destruct (coeff a =? 0); [cbn; lia|].
  set (shift := ndigits (coeff b) - ndigits (coeff a) + prec + 1).
  set (num := if 0 <=? shift then coeff a * 10 ^ shift else coeff a).
  set (den := if 0 <=? shift then coeff b else coeff b * 10 ^ (- shift)).
  assert (Hnum : 0 <= num).
  { unfold num. destruct (0 <=? shift) eqn:Hs; [|exact Ha].
    apply Z.leb_le in Hs. apply Z.mul_nonneg_nonneg; [exact Ha|].
    apply Z.pow_nonneg. lia. }
  assert (Hden : 0 < den).
  { unfold den. destruct (Z.leb_spec 0 shift); [exact Hb|].
    apply Z.mul_pos_pos; [exact Hb|]. apply Z.pow_pos_nonneg; lia. }
  assert (Hq : 0 <= num / den) by (apply Z.div_pos; assumption).
  destruct (num mod den =? 0).
  - destruct (strip_zeros _ _ _ _) as [c' e'] eqn:Hs. cbn [coeff].
    eapply strip_zeros_nonneg; [exact Hq|exact Hs].
  - cbn [coeff]. destruct (_ =? 0); lia.
Qed.

(** What [_fix] hands back never has more than [prec] digits. *)
Lemma fix_coeff_bound d d' :
  0 <= coeff d -> fix_ d = Some d' -> 0 <= coeff d' < 10 ^ 28.
Proof.
  intros Hc. unfold fix_.
  destruct (Z.eqb_spec (coeff d) 0) as [_|Hnz].
  { intros H. inversion H. cbn [coeff].
    split; [lia|apply Z.pow_pos_nonneg; lia]. }
  assert (Hpos : 0 < coeff d) by lia.
  destruct (ndigits_bounds (coeff d) Hpos) as [[Hlo Hhi] Hone].
  set (len := ndigits (coeff d)) in *.
  destruct (Etop <? len + exp d - prec); [discriminate|].
  set (exp_min := Z.max (len + exp d - prec) Etiny).
  destruct (Z.ltb_spec (exp d) exp_min) as [Hlt|Hge].
  - set (drop := exp_min - exp d).
    assert (Hdrop : 0 < drop /\ len - 28 <= drop)
      by (unfold drop, exp_min, prec in *; lia).
    assert (Hq : 0 <= coeff d / 10 ^ drop < 10 ^ 28).
    { assert (0 < 10 ^ drop) by (apply Z.pow_pos_nonneg; lia).
      split; [apply Z.div_pos; lia|].
      apply Z.div_lt_upper_bound; [assumption|].
      rewrite <- Z.pow_add_r by lia.
      eapply Z.lt_le_trans; [exact Hhi|].
      apply Z.pow_le_mono_r; lia. }
    set (q := coeff d / 10 ^ drop) in *.
    destruct ((_ <? _) || _) eqn:Hup; cbn [andb].
    + destruct (Z.ltb_spec prec (ndigits (q + 1))) as [Hmany|Hfew].
      * destruct (Etop <? exp_min + 1); [discriminate|].
        intros H. inversion H. cbn [coeff].
        split; [apply Z.div_pos; lia|].
        apply Z.div_lt_upper_bound; [lia|].
        change (10 ^ 28) with 10000000000000000000000000000 in *. lia.
      * intros H. inversion H. cbn [coeff].
        split; [lia|].
        destruct (ndigits_bounds (q + 1) ltac:(lia)) as [[_ Hhi'] _].
        eapply Z.lt_le_trans; [exact Hhi'|].
        apply Z.pow_le_mono_r; unfold prec in Hfew; lia.
    + intros H. inversion H. cbn [coeff]. exact Hq.
  - intros H. inversion H. subst d'. split; [lia|].
    eapply Z.lt_le_trans; [exact Hhi|].
    apply Z.pow_le_mono_r; unfold exp_min, prec in *; lia.
Qed.

(** Whatever [Decimal(n) / m] shows for [n >= 0] and [m > 0] has at most
    28 significant digits. *)
Lemma truediv_coeff_bound n m d :
  0 <= n -> 0 < m ->
  truediv (of_int n) (of_int m) = Some d -> 0 <= coeff d < 10 ^ 28.
Proof.
  intros Hn Hm. unfold truediv. apply fix_coeff_bound.
  apply div_raw_coeff_nonneg; unfold of_int; cbn [coeff]; lia.
Qed.

(** A reserve price of up to 28 digits, of either sign, is divided by
    [10^9] exactly. *)
Lemma truediv_pow9_value_signed rp :
  - 10 ^ 28 < rp < 10 ^ 28 ->
  exists sui,
    truediv (of_int rp) (of_int 1000000000) = Some sui
    /\ to_Q sui == rp # 1000000000.
Proof.
  intros [Hlo Hhi]. destruct (Z.le_gt_cases 0 rp) as [Hnn|Hneg].
  - apply truediv_pow9_value. lia.
  - destruct (truediv_pow9_exact (- rp) ltac:(lia))
      as (c & e & Hdiv & He & Hrp).
    assert (Hof : of_int rp = mk true (- rp) 0).
    { unfold of_int. rewrite (Z.abs_neq rp) by lia.
      replace (rp <? 0) with true by (symmetry; apply Z.ltb_lt; lia).
      reflexivity. }
    assert (Hof' : of_int (- rp) = mk false (- rp) 0).
    { unfold of_int. rewrite (Z.abs_eq (- rp)) by lia.
      replace (- rp <? 0) with false by (symmetry; apply Z.ltb_ge; lia).
      reflexivity. }
    exists (mk true c e). split.
    + rewrite Hof, truediv_sign, <- Hof', Hdiv. reflexivity.
    + unfold to_Q, Qeq. cbn [sign coeff exp Qnum Qden].
      rewrite (Z.max_l 0 e), (Z.max_r 0 (- e)) by lia.
      rewrite Z2Pos.id by (apply Z.pow_pos_nonneg; lia).
      change (Z.pos 1000000000) with (10 ^ 9). change (10 ^ 0) with 1.
      replace rp with (- (c * 10 ^ (e + 9))) by lia.
      replace (10 ^ 9) with (10 ^ (e + 9) * 10 ^ (- e)); [lia|].
      rewrite <- Z.pow_add_r by lia. f_equal. lia.
Qed.

(** A reserve price of more than 28 digits that does not end in 0 is
    never divided exactly: the quotient shown is a rounded one. *)
Lemma truediv_pow9_inexact rp sui :
  10 ^ 28 <= rp -> rp mod 10 <> 0 ->
  truediv (of_int rp) (of_int 1000000000) = Some sui ->
  ~ to_Q sui == rp # 1000000000.
Proof.
  intros Hbig Hlast Hdiv.
  assert (Hrp : 0 < rp).
  { eapply Z.lt_le_trans; [|exact Hbig]. reflexivity. }
  destruct (truediv_coeff_bound rp 1000000000 sui ltac:(lia) ltac:(lia) Hdiv)
    as [Hc0 Hc1].
  unfold to_Q, Qeq. cbn [Qnum Qden].
  rewrite Z2Pos.id by (apply Z.pow_pos_nonneg; lia).
  change (Z.pos 1000000000) with (10 ^ 9).
  set (c := coeff sui) in *. set (e := exp sui).
  intros Heq.
  assert (Hp : 0 < 10 ^ Z.max 0 e) by (apply Z.pow_pos_nonneg; lia).
  assert (Hn : 0 < 10 ^ Z.max 0 (- e)) by (apply Z.pow_pos_nonneg; lia).
  destruct (sign sui).
  { assert (0 < rp * 10 ^ Z.max 0 (- e)) by (apply Z.mul_pos_pos; lia).
    assert (0 <= c * 10 ^ Z.max 0 e) by (apply Z.mul_nonneg_nonneg; lia).
    lia. }
  destruct (Z.le_gt_cases (-9) e) as [Hge|Hlt].
  - (* rp = c * 10^(e+9): either rp ends in 0 or rp = c < 10^28 *)
    assert (Hval : rp = c * 10 ^ (e + 9)).
    { destruct (Z.le_gt_cases 0 e) as [He|He].
      - rewrite (Z.max_r 0 e), (Z.max_l 0 (- e)) in Heq by lia.
        change (10 ^ 0) with 1 in Heq.
        rewrite Z.pow_add_r by lia. lia.
      - rewrite (Z.max_l 0 e), (Z.max_r 0 (- e)) in Heq by lia.
        change (10 ^ 0) with 1 in Heq.
        replace (10 ^ 9) with (10 ^ (e + 9) * 10 ^ (- e)) in Heq
          by (rewrite <- Z.pow_add_r by lia; f_equal; lia).
        assert (Hne : 10 ^ (- e) <> 0) by (apply Z.pow_nonzero; lia).
        apply (Z.mul_cancel_r _ _ _ Hne). lia. }
    destruct (Z.eq_dec e (-9)) as [->|Hne9].
    + change (10 ^ (-9 + 9)) with 1 in Hval. lia.
    + apply Hlast. rewrite Hval.
      replace (e + 9) with (Z.succ (e + 8)) by lia.
      rewrite Z.pow_succ_r by lia.
      replace (c * (10 * 10 ^ (e + 8))) with (c * 10 ^ (e + 8) * 10) by lia.
      apply Z.mod_mul. lia.
  - (* c = rp * 10^(-e-9) >= rp >= 10^28 *)
    rewrite (Z.max_l 0 e), (Z.max_r 0 (- e)) in Heq by lia.
    change (10 ^ 0) with 1 in Heq.
    replace (10 ^ (- e)) with (10 ^ (- e - 9) * 10 ^ 9) in Heq
      by (rewrite <- Z.pow_add_r by lia; f_equal; lia).
    assert (Hk : 0 < 10 ^ (- e - 9)) by (apply Z.pow_pos_nonneg; lia).
    assert (Hc : c = rp * 10 ^ (- e - 9)).
    { assert (Hne : 10 ^ 9 <> 0) by (apply Z.pow_nonzero; lia).
      apply (Z.mul_cancel_r _ _ _ Hne). lia. }
    nia.
Qed.

End DecimalMore.

Section ReserveLine.
Variables (w : world) (name : string) (description : option string).
Variables (start_ts end_ts reserve_price starting_price
             min_bid_increment : Z).

Local Abbreviation out :=
  (run (create w name description start_ts end_ts reserve_price
          starting_price min_bid_increment)).

(** The reserve line is exact for every reserve price of up to 28 digits,
    of either sign: whenever [create] displays it, the decimal shown
    denotes [reserve_price / 1_000_000_000]. *)
Theorem reserve_line_exact_up_to_28_digits sui :
  - 10 ^ 28 < reserve_price < 10 ^ 28 ->
  In (LReserve sui) (printed (fst out)) ->
  Decimal.to_Q sui == reserve_price # 1000000000.
Proof.
  intros Hrange Hshown. apply create_printed_reserve in Hshown.
  destruct (DecimalMore.truediv_pow9_value_signed reserve_price Hrange)
    as (d & Hdiv & Hval).
  rewrite Hdiv in Hshown. injection Hshown as <-. exact Hval.
Qed.

(** The reserve line never shows more than 28 significant digits,
    whatever the reserve price. *)
Theorem reserve_line_has_at_most_28_digits sui :
  In (LReserve sui) (printed (fst out)) ->
  0 <= Decimal.coeff sui < 10 ^ 28.
Proof.
  intros Hshown. apply create_printed_reserve in Hshown.
  unfold Decimal.of_int at 1 in Hshown.
  rewrite DecimalMore.truediv_sign in Hshown.
  destruct (Decimal.truediv _ _) as [d|] eqn:Hdiv; [|discriminate Hshown].
  cbn [option_map] in Hshown. injection Hshown as <-. cbn [Decimal.coeff].
  apply (DecimalMore.truediv_coeff_bound (Z.abs reserve_price) 1000000000 d);
    [lia|lia|].
  unfold Decimal.of_int at 1. rewrite Z.abs_idemp.
  replace (Z.abs reserve_price <? 0) with false
    by (symmetry; apply Z.ltb_ge; lia).
  exact Hdiv.
Qed.

(** Past 28 digits the reserve line is a rounded figure: for a reserve
    price of at least [10^28] whose last digit is not 0, what [create]
    displays is never [reserve_price / 1_000_000_000]. *)
Theorem reserve_line_rounded_past_28_digits sui :
  10 ^ 28 <= reserve_price ->
  reserve_price mod 10 <> 0 ->
  In (LReserve sui) (printed (fst out)) ->
  ~ Decimal.to_Q sui == reserve_price # 1000000000.
Proof.
  intros Hbig Hlast Hshown. apply create_printed_reserve in Hshown.
  exact (DecimalMore.truediv_pow9_inexact reserve_price sui Hbig Hlast Hshown).
Qed.

End ReserveLine.

(** A reserve price of -1500000000 MIST is shown as -1.5. *)
Lemma reserve_line_exact_up_to_28_digits_witness :
  Decimal.to_Q (Decimal.mk true 15 (-1)) == -1500000000 # 1000000000.
Proof.
  refine (reserve_line_exact_up_to_28_digits (sample_world (Answer true))
            "Prime Machin x Arttoo" None 0 1753660800000 (-1500000000) 0 0
            _ _ _).
  - split; apply Z.ltb_lt; vm_compute; reflexivity.
  - vm_compute. do 4 right. left. reflexivity.
Defined.

(** The spec's example run shows a coefficient of one digit. *)
Lemma reserve_line_has_at_most_28_digits_witness :
  0 <= Decimal.coeff (Decimal.mk false 1 0) < 10 ^ 28.
Proof.
  refine (reserve_line_has_at_most_28_digits (sample_world (Answer true))
            "Prime Machin x Arttoo" None 0 1753660800000 1000000000 0 0
            _ _).
  vm_compute. do 4 right. left. reflexivity.
Defined.

(** [10^28 + 1] is shown as [1.000000000000000000000000000E+19]. *)
Lemma reserve_line_rounded_past_28_digits_witness :
  ~ Decimal.to_Q (Decimal.mk false 1000000000000000000000000000 (-8))
    == (10 ^ 28 + 1) # 1000000000.
Proof.
  refine (reserve_line_rounded_past_28_digits (sample_world (Answer true))
            "Prime Machin x Arttoo" None 0 1753660800000 (10 ^ 28 + 1) 0 0
            _ _ _ _).
  - apply Z.leb_le. vm_compute. reflexivity.
  - vm_compute. discriminate.
  - vm_compute. do 4 right. left. reflexivity.
Defined.

(** ** What the prompt does and does not guard *)

(** Reading [prompt_precedes_requests]: a log that passes has a prompt
    before every SDK request. *)
Lemma prompt_precedes_requests_sound l :
  prompt_precedes_requests l = true ->
  forall before r after,
    l = (before ++ Requested r :: after)%list ->
    exists text, In (Prompted text) before.
Proof.
  induction l as [|e l IH]; intros Hok before r after Heq.
  - destruct before; discriminate Heq.
  - destruct before as [|b before].
    + cbn in Heq. injection Heq as -> _. discriminate Hok.
    + cbn in Heq. injection Heq as -> Heq.
      destruct b as [ln|text|r'].
      * destruct (IH Hok before r after Heq) as [text Hin].
        exists text. right. exact Hin.
      * exists text. left. reflexivity.
      * discriminate Hok.
Qed.

Section Prompt.
Variables (w : world) (name : string) (description : option string).
Variables (start_ts end_ts reserve_price starting_price
             min_bid_increment : Z).

Local Abbreviation out :=
  (run (create w name description start_ts end_ts reserve_price
          starting_price min_bid_increment)).

(** [create] asks nothing of the SDK before it has shown the prompt:
    every SDK request of a run stands after a prompt. *)
Theorem create_asks_sdk_only_after_prompt before r after :
  fst (run (create w name description start_ts end_ts reserve_price
             starting_price min_bid_increment))
  = (before ++ Requested r :: after)%list ->
  exists text, In (Prompted text) before.
Proof.
  apply prompt_precedes_requests_sound.
  create_paths w start_ts end_ts; reflexivity.
Qed.

(** When the prompt is shown, the five summary lines stand before it, in
    the order name, description, start, end, reserve; the start line
    shows the timestamp that is used (the clock reading for
    [--start-ts 0]) and both instants are rendered. *)
Theorem create_summary_precedes_prompt text :
  In (Prompted text)
    (fst (run (create w name description start_ts end_ts reserve_price
             starting_price min_bid_increment))) ->
  exists iso_start iso_end sui rest,
    let start := if start_ts =? 0 then clock_ms w else start_ts in
    isoformat_ms w start = Some iso_start
    /\ isoformat_ms w end_ts = Some iso_end
    /\ fst out =
         ([Printed (LName name); Printed (LDescription description);
           Printed (LStart start iso_start); Printed (LEnd end_ts iso_end);
           Printed (LReserve sui);
           Prompted "Please confirm the auction details:"] ++ rest)%list.
Proof.
  create_paths w start_ts end_ts; try absent_event;
    intros _; do 4 eexists; cbv zeta; (split; [reflexivity|]);
    (split; [reflexivity|]); reflexivity.
Qed.

(** When no answer can be read at the prompt (end of input, interrupt),
    [create] stops there: the prompt is the last step of the run, nothing
    has been asked of the SDK, and the process ends with status 1. *)
Theorem create_unanswered_prompt_aborts text :
  In (Prompted text) (fst out) ->
  confirm_reply w = NoAnswer ->
  snd out = Exc Abort
  /\ sdk_requests (fst out) = []
  /\ last_event (fst out) =
       Some (Prompted "Please confirm the auction details:")
  /\ exit_status (snd out) = 1.
Proof.
  create_paths w start_ts end_ts; try absent_event;
    intros _ Hreply; try discriminate Hreply; repeat split.
Qed.

(** A "no" at the prompt stops nothing, whatever the arguments: once the
    prompt has been shown and declined, with an SDK that raises nothing,
    the transaction of four commands is submitted, and when its execution
    succeeds the command returns normally (status 0). *)
Theorem create_declined_submits_anyway text :
  In (Prompted text) (fst out) ->
  confirm_reply w = Answer false ->
  sdk_ok w ->
  exists tx,
    submitted (fst out) = [(tx, 1000000000)]
    /\ List.length tx = 4%nat
    /\ built (fst out) = tx
    /\ forall payload,
         submit w tx 1000000000 = RpcOk payload ->
         snd out = Val tt /\ exit_status (snd out) = 0.
Proof.
  intros Hprompt Hno Hok.
  destruct (create_answered _ _ _ _ _ _ _ _ _ _ Hprompt Hno Hok)
    as (Hbuilt & _ & Hsub & Hend).
  eexists. split; [exact Hsub|]. split; [reflexivity|].
  split; [exact Hbuilt|].
  intros payload Hpay. rewrite Hpay in Hend. destruct Hend as [_ ->].
  split; reflexivity.
Qed.

(** The only way [create] raises [typer.Exit] is the ordering check: it
    does so exactly when the start timestamp in use is strictly after
    [end_ts], so equal timestamps pass. *)
Theorem create_exit_iff_start_after_end :
  (exists code,
      snd (run (create w name description start_ts end_ts reserve_price
             starting_price min_bid_increment))
      = Exc (Exit code))
  <-> end_ts < (if start_ts =? 0 then clock_ms w else start_ts).
Proof.
  split.
  - create_paths w start_ts end_ts; intros [code Hcode];
      try discriminate Hcode; lia.
  - intros Hlt. eexists.
    rewrite (create_late w name description start_ts end_ts reserve_price
               starting_price min_bid_increment Hlt).
    reflexivity.
Qed.


(** With a start timestamp other than 0 the clock plays no part. *)
Theorem create_nonzero_start_ignores_clock now :
  start_ts <> 0 ->
  run (create (with_clock w now) name description start_ts end_ts
         reserve_price starting_price min_bid_increment)
  = out.
Proof.
  intros Hnz. unfold create.
  destruct (Z.eqb_spec start_ts 0) as [Hz|_]; [contradiction|].
  reflexivity.
Qed.

End Prompt.

(** ** Submission, results and errors *)

Section Outcomes.
Variables (w : world).
Variables (auction_id : string) (amount : Z).
Variables (name : string) (description : option string).
Variables (start_ts end_ts reserve_price starting_price
             min_bid_increment : Z).

Local Abbreviation bid_out := (run (bid w auction_id amount)).
Local Abbreviation create_out :=
  (run (create w name description start_ts end_ts reserve_price
          starting_price min_bid_increment)).

(** Neither command retries: a run submits at most one transaction. *)
Theorem at_most_one_submission :
  (List.length (submitted (fst bid_out)) <= 1)%nat
  /\ (List.length (submitted (fst create_out)) <= 1)%nat.
Proof.
  split.
  - bid_paths w; repeat constructor.
  - create_paths w start_ts end_ts; repeat constructor.
Qed.

(** Neither command submits a partial transaction: what is submitted is
    the full list of the commands the builder was asked for, two for a
    bid and four for a creation, even when the SDK raises on the way. *)
Theorem no_partial_submission tx gas :
  (In (tx, gas) (submitted (fst bid_out)) ->
   built (fst bid_out) = tx /\ List.length tx = 2%nat)
  /\ (In (tx, gas) (submitted (fst create_out)) ->
      built (fst create_out) = tx /\ List.length tx = 4%nat).
Proof.
  split.
  - bid_paths w; try absent_event;
      intros [Hq|[]]; inversion Hq; split; reflexivity.
  - create_paths w start_ts end_ts; try absent_event;
      intros [Hq|[]]; inversion Hq; split; reflexivity.
Qed.

(** The results a submitted transaction refers to are results of
    commands that stand before the one using them. *)
Theorem submitted_transactions_are_well_scoped tx gas :
  In (tx, gas) (submitted (fst bid_out))
  \/ In (tx, gas) (submitted (fst create_out)) ->
  well_scoped tx = true.
Proof.
  intros [Hq|Hq].
  - apply bid_submitted in Hq. destruct Hq as [-> _]. reflexivity.
  - apply create_submitted in Hq. destruct Hq as (-> & _ & _).
    unfold create_commands, well_scoped. cbn.
    destruct description as [[|a text]|]; reflexivity.
Qed.

(** An exception of the SDK ends the command on the spot: the request it
    was raised on is the last step of the run. *)
Theorem sdk_exception_ends_the_command msg :
  (snd bid_out = Exc (SdkError msg) ->
   exists r, last_event (fst bid_out) = Some (Requested r)
             /\ sdk_fault w r = Some msg)
  /\ (snd create_out = Exc (SdkError msg) ->
      exists r, last_event (fst create_out) = Some (Requested r)
                /\ sdk_fault w r = Some msg).
Proof.
  split.
  - bid_paths w; intros Hq; try discriminate Hq;
      injection Hq as <-; eexists; (split; [reflexivity|eassumption]).
  - create_paths w start_ts end_ts; intros Hq; try discriminate Hq;
      injection Hq as <-; eexists; (split; [reflexivity|eassumption]).
Qed.

(** A command returns normally, so that the process exits with status 0,
    exactly when it has printed a result; and the result it prints is the
    payload of the successful execution of the transaction it built. *)
Theorem returns_iff_result_printed :
  (snd bid_out = Val tt
   <-> exists payload, In (LResult payload) (printed (fst bid_out)))
  /\ (snd create_out = Val tt
      <-> exists payload, In (LResult payload) (printed (fst create_out)))
  /\ (forall payload,
        In (LResult payload) (printed (fst bid_out)) ->
        submit w (built (fst bid_out)) 1000000000 = RpcOk payload)
  /\ (forall payload,
        In (LResult payload) (printed (fst create_out)) ->
        submit w (built (fst create_out)) 1000000000 = RpcOk payload).
Proof.
  split; [|split; [|split]].
  - bid_paths w; (split; [intros Hq; try discriminate Hq|
                          intros [p Hq]; revert Hq; try absent_event]);
      try reflexivity; eexists; left; reflexivity.
  - create_paths w start_ts end_ts;
      (split; [intros Hq; try discriminate Hq|
               intros [p Hq]; revert Hq; try absent_event]);
      try reflexivity; eexists; cbn;
      repeat (try (left; reflexivity); right).
  - intros p. bid_paths w; try absent_event.
    intros [Hq|[]]. injection Hq as <-. assumption.
  - intros p. create_paths w start_ts end_ts; try absent_event;
      intros Hq; do 5 (destruct Hq as [Hq|Hq]; [discriminate Hq|]);
      destruct Hq as [Hq|[]]; injection Hq as <-; assumption.
Qed.

(** A failed execution is reported once and not retried.  The only
    [sys.exit] of a run is the one of [handle_result]: when a command ends
    with it, the one transaction has been submitted and its execution has
    failed, the code is -1, what the SDK has written on standard output is
    [Error in result: ] followed by the error text, no result has been
    printed, and the process ends with status 255. *)
Theorem failed_execution_is_reported code output :
  (snd bid_out = Exc (SystemExit code output) ->
   exists msg,
     submit w (built (fst bid_out)) 1000000000 = RpcErr msg
     /\ code = -1 /\ output = "Error in result: " ++ msg
     /\ submitted (fst bid_out) = [(built (fst bid_out), 1000000000)]
     /\ (forall payload, ~ In (LResult payload) (printed (fst bid_out)))
     /\ exit_status (snd bid_out) = 255)
  /\ (snd create_out = Exc (SystemExit code output) ->
      exists msg,
        submit w (built (fst create_out)) 1000000000 = RpcErr msg
        /\ code = -1 /\ output = "Error in result: " ++ msg
        /\ submitted (fst create_out) =
             [(built (fst create_out), 1000000000)]
        /\ (forall payload,
              ~ In (LResult payload) (printed (fst create_out)))
        /\ exit_status (snd create_out) = 255).
Proof.
  split.
  - bid_paths w; intros Hq; try discriminate Hq;
      injection Hq as <- <-; eexists;
      repeat split; try eassumption; intros p; absent_event.
  - create_paths w start_ts end_ts; intros Hq; try discriminate Hq;
      injection Hq as <- <-; eexists;
      repeat split; try eassumption; intros p; absent_event.
Qed.

(** When the SDK refuses a value handed to one of its wrappers (for
    [SuiU64], an integer outside the unsigned 64-bit range), the command
    ends there, before the builder is asked for the call that was to
    receive the value: nothing is submitted and the process ends with
    status 1.  For [bid] the coin split has been requested by then; for
    [create] the prompt has been shown and at most the option construction
    has been requested. *)
Theorem refused_value_ends_the_command msg :
  (snd bid_out = Exc (ArgumentError msg) ->
   built (fst bid_out) = [SplitCoin GasCoin [amount]]
   /\ submitted (fst bid_out) = []
   /\ exit_status (snd bid_out) = 1)
  /\ (snd create_out = Exc (ArgumentError msg) ->
      In (Prompted "Please confirm the auction details:") (fst create_out)
      /\ (List.length (built (fst create_out)) <= 1)%nat
      /\ submitted (fst create_out) = []
      /\ exit_status (snd create_out) = 1).
Proof.
  split.
  - bid_paths w; intros Hq; try discriminate Hq; repeat split.
  - create_paths w start_ts end_ts; intros Hq; try discriminate Hq;
      (split; [cbn; do 5 right; left; reflexivity|]);
      repeat split; repeat constructor.
Qed.

(** [bid] asks for no confirmation and displays no summary: every step of
    its run is an SDK request or the printed result. *)
Theorem bid_never_prompts e :
  In e (fst (run (bid w auction_id amount))) ->
  (exists r, e = Requested r) \/ (exists payload, e = Printed (LResult payload)).
Proof.
  bid_paths w; intros Hq;
    repeat (destruct Hq as [Hq|Hq];
            [subst e; first [left; eexists; reflexivity
                            |right; eexists; reflexivity]|]);
    destruct Hq.
Qed.

End Outcomes.

(** ** Runs that meet the hypotheses above *)

(** In the spec's example run the request for a builder stands right
    after the prompt. *)
Lemma create_asks_sdk_only_after_prompt_witness :
  exists text,
    In (Prompted text)
      (firstn 6 (fst (run (create (sample_world (Answer true))
                             "Prime Machin x Arttoo" None 0 1753660800000
                             1000000000 0 0)))).
Proof.
  refine (create_asks_sdk_only_after_prompt (sample_world (Answer true))
            "Prime Machin x Arttoo" None 0 1753660800000 1000000000 0 0
            _ (NewTransaction (Some true) None)
            (skipn 7 (fst (run (create (sample_world (Answer true))
                                  "Prime Machin x Arttoo" None 0
                                  1753660800000 1000000000 0 0)))) _).
  vm_compute. reflexivity.
Defined.

(** The summary of the spec's example run. *)
Lemma create_summary_precedes_prompt_witness :
  exists iso_start iso_end sui rest,
    isoformat_ms (sample_world (Answer true)) 1753000000000 = Some iso_start
    /\ isoformat_ms (sample_world (Answer true)) 1753660800000 = Some iso_end
    /\ fst (run (create (sample_world (Answer true))
                   "Prime Machin x Arttoo" None 0 1753660800000
                   1000000000 0 0))
       = ([Printed (LName "Prime Machin x Arttoo");
           Printed (LDescription None);
           Printed (LStart 1753000000000 iso_start);
           Printed (LEnd 1753660800000 iso_end);
           Printed (LReserve sui);
           Prompted "Please confirm the auction details:"] ++ rest)%list.
Proof.
  refine (create_summary_precedes_prompt (sample_world (Answer true))
            "Prime Machin x Arttoo" None 0 1753660800000 1000000000 0 0
            "Please confirm the auction details:" _).
  vm_compute. do 5 right. left. reflexivity.
Defined.

(** The spec's example run with the input closed at the prompt. *)
Lemma create_unanswered_prompt_aborts_witness :
  snd (run (create (sample_world NoAnswer) "Prime Machin x Arttoo" None 0
              1753660800000 1000000000 0 0)) = Exc Abort
  /\ sdk_requests
       (fst (run (create (sample_world NoAnswer) "Prime Machin x Arttoo"
                    None 0 1753660800000 1000000000 0 0))) = [].
Proof.
  destruct (create_unanswered_prompt_aborts (sample_world NoAnswer)
              "Prime Machin x Arttoo" None 0 1753660800000 1000000000 0 0
              "Please confirm the auction details:") as (Habort & Hnone & _).
  - vm_compute. do 5 right. left. reflexivity.
  - reflexivity.
  - split; [exact Habort|exact Hnone].
Defined.

(** The spec's example run, declined. *)
Lemma create_declined_submits_anyway_witness :
  exists tx,
    submitted (fst (run (create (sample_world (Answer false))
                           "Prime Machin x Arttoo" None 0 1753660800000
                           1000000000 0 0))) = [(tx, 1000000000)]
    /\ List.length tx = 4%nat.
Proof.
  destruct (create_declined_submits_anyway (sample_world (Answer false))
              "Prime Machin x Arttoo" None 0 1753660800000 1000000000 0 0
              "Please confirm the auction details:") as (tx & Hsub & Hlen & _).
  - vm_compute. do 5 right. left. reflexivity.
  - reflexivity.
  - intros r. reflexivity.
  - exists tx. split; [exact Hsub|exact Hlen].
Defined.


(** A fixed start timestamp, with the clock a week ahead. *)
Lemma create_nonzero_start_ignores_clock_witness :
  run (create (with_clock (sample_world (Answer true)) 1753604800000)
         "Prime Machin x Arttoo" None 1753000000000 1753660800000
         1000000000 0 0)
  = run (create (sample_world (Answer true)) "Prime Machin x Arttoo" None
           1753000000000 1753660800000 1000000000 0 0).
Proof.
  refine (create_nonzero_start_ignores_clock (sample_world (Answer true))
            "Prime Machin x Arttoo" None 1753000000000 1753660800000
            1000000000 0 0 1753604800000 _).
  discriminate.
Defined.

(** The transaction of the spec's example run. *)
Lemma submitted_transactions_are_well_scoped_witness :
  well_scoped
    (create_commands (sample_world (Answer true)) "Prime Machin x Arttoo"
       None 1753000000000 1753660800000 1000000000 0 0) = true.
Proof.
  refine (submitted_transactions_are_well_scoped
            (sample_world (Answer true)) "0xabc" 5 "Prime Machin x Arttoo"
            None 0 1753660800000 1000000000 0 0 _ 1000000000 _).
  right. vm_compute. left. reflexivity.
Defined.

(** The first step of a bid of 5. *)
Lemma bid_never_prompts_witness :
  (exists r, Requested (NewTransaction (Some true) (Some true)) = Requested r)
  \/ (exists payload,
        Requested (NewTransaction (Some true) (Some true))
        = Printed (LResult payload)).
Proof.
  refine (bid_never_prompts (sample_world NoAnswer) "0xabc" 5 _ _).
  vm_compute. left. reflexivity.
Defined.

(** The transactions the two sample runs submit are the ones they
    built. *)
Lemma no_partial_submission_witness :
  built (fst (run (bid (sample_world NoAnswer) "0xabc" 5)))
  = bid_commands "0xabc" 5.
Proof.
  refine (proj1 (proj1 (no_partial_submission (sample_world NoAnswer)
                          "0xabc" 5 "Prime Machin x Arttoo" None 0
                          1753660800000 1000000000 0 0
                          (bid_commands "0xabc" 5) 1000000000) _)).
  vm_compute. left. reflexivity.
Defined.

(** A bid against an SDK that refuses the split: the run ends on that
    request, with nothing submitted. *)
Lemma sdk_exception_ends_the_command_witness :
  exists r,
    last_event (fst (run (bid (refusing_world NoAnswer) "0xabc" (-5))))
    = Some (Requested r)
    /\ sdk_fault (refusing_world NoAnswer) r = Some "invalid amount".
Proof.
  refine (proj1 (sdk_exception_ends_the_command (refusing_world NoAnswer)
                   "0xabc" (-5) "Prime Machin x Arttoo" None 0
                   1753660800000 1000000000 0 0 "invalid amount") _).
  reflexivity.
Defined.

(** The sample bid returns and prints its digest. *)
Lemma returns_iff_result_printed_witness :
  exists payload,
    In (LResult payload)
      (printed (fst (run (bid (sample_world NoAnswer) "0xabc" 5)))).
Proof.
  refine (proj1 (proj1 (returns_iff_result_printed (sample_world NoAnswer)
                          "0xabc" 5 "Prime Machin x Arttoo" None 0
                          1753660800000 1000000000 0 0)) _).
  reflexivity.
Defined.

(** The spec's example run, confirmed, with an execution that fails. *)
Lemma failed_execution_is_reported_witness :
  exists msg,
    submit (failing_world (Answer true))
      (built (fst (run (create (failing_world (Answer true))
                          "Prime Machin x Arttoo" None 0 1753660800000
                          1000000000 0 0)))) 1000000000 = RpcErr msg
    /\ exit_status
         (snd (run (create (failing_world (Answer true))
                      "Prime Machin x Arttoo" None 0 1753660800000
                      1000000000 0 0))) = 255.
Proof.
  destruct (proj2 (failed_execution_is_reported
                     (failing_world (Answer true)) "0xabc" 5
                     "Prime Machin x Arttoo" None 0
                     1753660800000 1000000000 0 0
                     (-1) "Error in result: InsufficientGas") eq_refl)
    as (msg & Hfail & _ & _ & _ & _ & Hstatus).
  exists msg. split; [exact Hfail|exact Hstatus].
Defined.

(** The spec's example run with a reserve price of 2^64, against an SDK
    whose [SuiU64] holds unsigned 64-bit integers only: the run ends at
    the wrapper, with nothing submitted. *)
Lemma refused_value_ends_the_command_witness :
  submitted (fst (run (create (checking_world (Answer true))
                         "Prime Machin x Arttoo" None 0 1753660800000
                         18446744073709551616 0 0))) = []
  /\ exit_status
       (snd (run (create (checking_world (Answer true))
                    "Prime Machin x Arttoo" None 0 1753660800000
                    18446744073709551616 0 0))) = 1.
Proof.
  refine (proj2 (proj2 (proj2 (refused_value_ends_the_command
                                 (checking_world (Answer true)) "0xabc" 5
                                 "Prime Machin x Arttoo" None 0
                                 1753660800000 18446744073709551616 0 0
                                 "value out of range") _))).
  vm_compute. reflexivity.
Defined.
